(** * Susrusha eClinic back end: consultation life cycle and PhonePe signing

    A shallow embedding of

    - [consultations/models.py]: the [Consultation] model with its
      identifier generation, derived time predicates, reschedule workflow
      and check-in transitions, and the [ConsultationReceipt] numbering;
    - [payments/phonepe_service.py]: amount conversion, request signing
      and webhook signature verification of [PhonePeService].

    Python values are modelled as follows.  A [str] is a Rocq [string]
    whose characters are the code points below 256.  An [int] is a [Z].
    A [float] is an IEEE 754 binary64 value of [SpecFloat].  An aware
    [datetime] is a [Z], the number of microseconds since the epoch;
    a [date] is a day number and a [time] the microseconds since midnight.
    A nullable column is an [option].  Exceptions are values of
    [Exception], carried by [result]. *)

From Stdlib Require Import ZArith Ascii String List Lia DecimalString.
From Stdlib Require Import Floats.SpecFloat.
From Stdlib Require DecimalPos.
From Stdlib Require Import Permutation.
From stdpp Require Import gmap strings list.

Local Open Scope Z_scope.

(** ** Exceptions and results *)

Inductive Exception : Type :=
  | ValidationError (message : string)
  | ValueError
  | IndexError
  | TypeError
  | OverflowError.

Inductive result (A : Type) : Type :=
  | Return (a : A)
  | Raise (e : Exception).

Arguments Return {A} a.
Arguments Raise {A} e.

Definition is_raise {A} (r : result A) : bool :=
  match r with Raise _ => true | Return _ => false end.

(** [try: ... except (ValueError, IndexError): handler] *)
Definition except_ValueError_IndexError {A} (body : result A) (handler : result A)
  : result A :=
  match body with
  | Raise ValueError | Raise IndexError => handler
  | other => other
  end.

(** [try: ... except Exception: handler] *)
Definition except_Exception {A} (body : result A) (handler : A) : A :=
  match body with
  | Return a => a
  | Raise _ => handler
  end.

(** ** The Python built-ins the two modules call *)

Module Py.

Definition ord (c : ascii) : Z := Z.of_N (N_of_ascii c).

(** [str.isspace] on one character, for code points below 256. *)
Definition isspace (c : ascii) : bool :=
  let n := ord c in
  ((9 <=? n) && (n <=? 13)) || ((28 <=? n) && (n <=? 32))
  || (n =? 133) || (n =? 160).

Definition digit_value (c : ascii) : option Z :=
  let n := ord c in
  if (48 <=? n) && (n <=? 57) then Some (n - 48) else None.

Fixpoint lstrip (s : string) : string :=
  match s with
  | EmptyString => EmptyString
  | String c r => if isspace c then lstrip r else s
  end.

Definition strip (s : string) : string :=
  String.rev (lstrip (String.rev (lstrip s))).

(** [s.startswith(p)] *)
Definition startswith (s p : string) : bool := String.prefix p s.

(** [s[n:]] *)
Fixpoint slice_from (n : nat) (s : string) : string :=
  match n, s with
  | O, _ => s
  | S _, EmptyString => EmptyString
  | S n', String _ r => slice_from n' r
  end.

(** [s[:n]] *)
Fixpoint slice_to (n : nat) (s : string) : string :=
  match n, s with
  | O, _ => EmptyString
  | S _, EmptyString => EmptyString
  | S n', String c r => String c (slice_to n' r)
  end.

(** The digits of an [int] literal: decimal digits, with single
    underscores allowed between two digits. *)
Fixpoint digits (acc : Z) (after_digit : bool) (s : string) : option Z :=
  match s with
  | EmptyString => if after_digit then Some acc else None
  | String c r =>
      match digit_value c with
      | Some d => digits (10 * acc + d) true r
      | None =>
          if Ascii.eqb c "_" && after_digit then digits acc false r else None
      end
  end.

(** [int(s)] for a [str] argument: surrounding white space is dropped,
    one sign is allowed, anything else raises [ValueError]. *)
Definition int (s : string) : result Z :=
  let body := strip s in
  let '(negative, ds) :=
    match body with
    | String "-" r => (true, r)
    | String "+" r => (false, r)
    | _ => (false, body)
    end in
  match digits 0 false ds with
  | Some n => Return (if negative then - n else n)
  | None => Raise ValueError
  end.

(** [str(n)] *)
Definition str (n : Z) : string := NilZero.string_of_int (Z.to_int n).

Fixpoint zeros (n : nat) : string :=
  match n with O => EmptyString | S n' => String "0" (zeros n') end.

(** [format(n, "0{width}d")]: the sign comes first and counts in the width. *)
Definition format_0d (width : nat) (n : Z) : string :=
  let ds := str (Z.abs n) in
  let sign := if n <? 0 then "-" else EmptyString in
  sign +:+ zeros (width - String.length sign - String.length ds) +:+ ds.

(** [s.split("###")]: the text is cut at every occurrence of the
    separator, found from left to right without overlap; a character that
    starts no separator joins the first part of what follows. *)
Definition cons_first (c : ascii) (parts : list string) : list string :=
  match parts with
  | p :: ps => String c p :: ps
  | [] => [String c EmptyString]
  end.

Fixpoint split3 (s : string) : list string :=
  match s with
  | EmptyString => [EmptyString]
  | String c r =>
      match r with
      | String c1 (String c2 r') =>
          if Ascii.eqb c "#" && Ascii.eqb c1 "#" && Ascii.eqb c2 "#"
          then EmptyString :: split3 r'
          else cons_first c (split3 r)
      | _ => cons_first c (split3 r)
      end
  end.

(** [all(p(c) for c in s)] *)
Fixpoint all_chars (p : ascii -> bool) (s : string) : bool :=
  match s with
  | EmptyString => true
  | String c r => p c && all_chars p r
  end.

(** [s.encode()]: UTF-8, one byte below 128 and two bytes from 128 to 255. *)
Fixpoint encode (s : string) : list Z :=
  match s with
  | EmptyString => []
  | String c r =>
      let n := ord c in
      if n <? 128 then n :: encode r
      else Z.lor 192 (Z.shiftr n 6) :: Z.lor 128 (Z.land n 63) :: encode r
  end.

(** [str.isascii] *)
Definition isascii (s : string) : bool := all_chars (fun c => ord c <? 128) s.

(** [s.upper()] on ASCII letters (the only letters of a hexadecimal text). *)
Definition upper_char (c : ascii) : ascii :=
  let n := ord c in
  if (97 <=? n) && (n <=? 122) then ascii_of_N (Z.to_N (n - 32)) else c.

Fixpoint upper (s : string) : string :=
  match s with
  | EmptyString => EmptyString
  | String c r => String (upper_char c) (upper r)
  end.

End Py.

(** ** [float]: IEEE 754 binary64 *)

Module PyFloat.

Definition prec : Z := 53.
Definition emax : Z := 1024.

(** [float(n)] for an [int] below 2^53 in magnitude (exact). *)
Definition of_int (n : Z) : spec_float := binary_normalize prec emax n 0 false.

(** [float(d)] for a [Decimal] (or a decimal text) with two places,
    given by its number of hundredths: the binary64 nearest to
    [hundredths / 100].  Both operands of the division are exact, and an
    IEEE division rounds its exact quotient to nearest-even, which is the
    rounding [float] applies to a decimal. *)
Definition of_decimal2 (hundredths : Z) : spec_float :=
  SFdiv prec emax (of_int hundredths) (of_int 100).

Definition mul (x y : spec_float) : spec_float := SFmul prec emax x y.

(** [int(x)]: truncation toward zero. *)
Definition to_int (x : spec_float) : result Z :=
  match x with
  | S754_zero _ => Return 0
  | S754_infinity _ => Raise OverflowError
  | S754_nan => Raise ValueError
  | S754_finite s m e =>
      let magnitude :=
        if 0 <=? e then Z.pos m * 2 ^ e else Z.pos m / 2 ^ (- e) in
      Return (if s then - magnitude else magnitude)
  end.

End PyFloat.

(** ** [hashlib.sha256] (FIPS 180-4) *)

Module Hashlib.

Definition mask32 (x : Z) : Z := Z.land x 0xffffffff.
Definition add32 (x y : Z) : Z := mask32 (x + y).
Definition rotr (n x : Z) : Z :=
  Z.lor (Z.shiftr x n) (mask32 (Z.shiftl x (32 - n))).

Definition Ch (x y z : Z) : Z :=
  Z.lxor (Z.land x y) (Z.land (Z.lxor x 0xffffffff) z).
Definition Maj (x y z : Z) : Z :=
  Z.lxor (Z.lxor (Z.land x y) (Z.land x z)) (Z.land y z).
Definition Sigma0 (x : Z) : Z := Z.lxor (Z.lxor (rotr 2 x) (rotr 13 x)) (rotr 22 x).
Definition Sigma1 (x : Z) : Z := Z.lxor (Z.lxor (rotr 6 x) (rotr 11 x)) (rotr 25 x).
Definition sigma0 (x : Z) : Z := Z.lxor (Z.lxor (rotr 7 x) (rotr 18 x)) (Z.shiftr x 3).
Definition sigma1 (x : Z) : Z := Z.lxor (Z.lxor (rotr 17 x) (rotr 19 x)) (Z.shiftr x 10).

(** The first 64 primes, by trial division. *)
Definition is_prime (n : Z) : bool :=
  (2 <=? n) && forallb (fun d => negb (n mod d =? 0)) (map Z.of_nat (seq 2 (Z.to_nat n - 2))).

Definition primes : list Z := filter (fun n => is_prime n = true) (map Z.of_nat (seq 2 310)).

(** The integer cube root below 2^[bits], one bit at a time. *)
Fixpoint cube_root (bits : nat) (n acc : Z) : Z :=
  match bits with
  | O => acc
  | S b =>
      let candidate := acc + 2 ^ Z.of_nat b in
      cube_root b n (if candidate * candidate * candidate <=? n then candidate else acc)
  end.

(** The round constants: the first 32 bits of the fractional parts of the
    cube roots of the first 64 primes. *)
Definition K : list Z :=
  Eval vm_compute in map (fun p => mask32 (cube_root 36 (p * 2 ^ 96) 0)) primes.

(** The eight working variables, and the chaining value. *)
Record state : Type := State
  { sa : Z; sb : Z; sc : Z; sd : Z; se : Z; sf : Z; sg : Z; sh : Z }.

(** The initial value: the first 32 bits of the fractional parts of the
    square roots of the first 8 primes. *)
Definition iv (i : nat) : Z := mask32 (Z.sqrt (nth i primes 0 * 2 ^ 64)).

Definition H0 : state :=
  Eval vm_compute in State (iv 0) (iv 1) (iv 2) (iv 3) (iv 4) (iv 5) (iv 6) (iv 7).

(** Big-endian words of a block. *)
Fixpoint words (bs : list Z) : list Z :=
  match bs with
  | b0 :: b1 :: b2 :: b3 :: r =>
      (Z.shiftl b0 24 + Z.shiftl b1 16 + Z.shiftl b2 8 + b3) :: words r
  | _ => []
  end.

(** The message schedule: [win] holds the sixteen latest words, oldest
    first; [schedule 64] of the block's words gives W0 .. W63. *)
Definition next_word (win : list Z) : Z :=
  add32 (add32 (add32 (sigma1 (nth 14 win 0)) (nth 9 win 0))
               (sigma0 (nth 1 win 0)))
        (nth 0 win 0).

Fixpoint schedule (n : nat) (win : list Z) : list Z :=
  match n, win with
  | S n', w0 :: r => w0 :: schedule n' (r ++ [next_word win])
  | _, _ => []
  end.

Definition round (s : state) (kw : Z * Z) : state :=
  let t1 := add32 (add32 (add32 (add32 (sh s) (Sigma1 (se s)))
                                (Ch (se s) (sf s) (sg s))) (fst kw)) (snd kw) in
  let t2 := add32 (Sigma0 (sa s)) (Maj (sa s) (sb s) (sc s)) in
  State (add32 t1 t2) (sa s) (sb s) (sc s) (add32 (sd s) t1) (se s) (sf s) (sg s).

Definition compress (h : state) (block : list Z) : state :=
  let s := fold_left round (combine K (schedule 64 (words block))) h in
  State (add32 (sa h) (sa s)) (add32 (sb h) (sb s)) (add32 (sc h) (sc s))
        (add32 (sd h) (sd s)) (add32 (se h) (se s)) (add32 (sf h) (sf s))
        (add32 (sg h) (sg s)) (add32 (sh h) (sh s)).

Definition be64 (n : Z) : list Z :=
  map (fun i => Z.land (Z.shiftr n (8 * i)) 255) [7; 6; 5; 4; 3; 2; 1; 0].

Definition pad (msg : list Z) : list Z :=
  let len := Z.of_nat (length msg) in
  msg ++ [128] ++ repeat 0 (Z.to_nat ((55 - len) mod 64)) ++ be64 (8 * len).

(** One byte at a time: a full 64-byte buffer is compressed into the
    chaining value. *)
Definition update (acc : state * list Z) (b : Z) : state * list Z :=
  let buf := snd acc ++ [b] in
  if Nat.eqb (length buf) 64 then (compress (fst acc) buf, []) else (fst acc, buf).

Definition digest_state (msg : list Z) : state :=
  fst (fold_left update (pad msg) (H0, [])).

Definition hex_digit (n : Z) : ascii :=
  ascii_of_N (Z.to_N (if n <? 10 then 48 + n else 87 + n)).

Definition nibble (w i : Z) : Z := (w / 2 ^ (4 * i)) mod 16.

Definition hex8 (w : Z) : string :=
  String (hex_digit (nibble w 7)) (String (hex_digit (nibble w 6))
 (String (hex_digit (nibble w 5)) (String (hex_digit (nibble w 4))
 (String (hex_digit (nibble w 3)) (String (hex_digit (nibble w 2))
 (String (hex_digit (nibble w 1)) (String (hex_digit (nibble w 0)) EmptyString))))))).

(** [hashlib.sha256(msg).hexdigest()] *)
Definition sha256_hexdigest (msg : list Z) : string :=
  let s := digest_state msg in
  hex8 (sa s) +:+ hex8 (sb s) +:+ hex8 (sc s) +:+ hex8 (sd s) +:+
  hex8 (se s) +:+ hex8 (sf s) +:+ hex8 (sg s) +:+ hex8 (sh s).

End Hashlib.

(** ** [base64.b64encode] and [json.dumps] *)

Module Base64.

Definition alphabet (n : Z) : ascii :=
  ascii_of_N (Z.to_N
    (if n <? 26 then 65 + n
     else if n <? 52 then 71 + n
     else if n <? 62 then n - 4
     else if n =? 62 then 43 else 47)).

Definition pad_char : ascii := "="%char.

(** [base64.b64encode(bs).decode()]: three bytes give four characters. *)
Fixpoint b64encode (bs : list Z) : string :=
  match bs with
  | [] => EmptyString
  | [a] =>
      String (alphabet (Z.shiftr a 2))
     (String (alphabet (Z.shiftl (Z.land a 3) 4))
     (String pad_char (String pad_char EmptyString)))
  | [a; b] =>
      String (alphabet (Z.shiftr a 2))
     (String (alphabet (Z.lor (Z.shiftl (Z.land a 3) 4) (Z.shiftr b 4)))
     (String (alphabet (Z.shiftl (Z.land b 15) 2))
     (String pad_char EmptyString)))
  | a :: b :: c :: r =>
      String (alphabet (Z.shiftr a 2))
     (String (alphabet (Z.lor (Z.shiftl (Z.land a 3) 4) (Z.shiftr b 4)))
     (String (alphabet (Z.lor (Z.shiftl (Z.land b 15) 2) (Z.shiftr c 6)))
     (String (alphabet (Z.land c 63)) (b64encode r))))
  end.

End Base64.

Module Json.

(** The values [json.dumps] serialises here: [None], [bool], [int],
    [str], [list] and [dict] with text keys in insertion order. *)
#[local] Unset Elimination Schemes.
Inductive value : Type :=
  | Null
  | Bool (b : bool)
  | Int (n : Z)
  | Str (s : string)
  | Array (items : list value)
  | Object (members : list (string * value)).
#[local] Set Elimination Schemes.

(** [d.get(k, default)] and [d[k] = v] on a [dict] kept in insertion order. *)
Fixpoint get (d : list (string * value)) (k : string) (default : value) : value :=
  match d with
  | [] => default
  | (k', v) :: r => if String.eqb k' k then v else get r k default
  end.

Fixpoint set (d : list (string * value)) (k : string) (v : value)
  : list (string * value) :=
  match d with
  | [] => [(k, v)]
  | (k', v') :: r => if String.eqb k' k then (k', v) :: r else (k', v') :: set r k v
  end.

(** Truth value of a Python object. *)
Definition truthy (v : value) : bool :=
  match v with
  | Null => false
  | Bool b => b
  | Int n => negb (n =? 0)
  | Str s => negb (String.eqb s EmptyString)
  | Array l => negb (Nat.eqb (length l) 0)
  | Object d => negb (Nat.eqb (length d) 0)
  end.

(** [format(n, "04x")] for a code point below 256. *)
Definition hex4 (n : Z) : string :=
  String "0" (String "0" (String (Hashlib.hex_digit (n / 16))
                                 (String (Hashlib.hex_digit (n mod 16)) EmptyString))).

(** With [ensure_ascii], every character outside [' '..'~'], the quote and
    the backslash are escaped. *)
Definition escape_char (c : ascii) : string :=
  let n := Py.ord c in
  if n =? 34 then String "\" (String c EmptyString)
  else if n =? 92 then String "\" (String "\" EmptyString)
  else if n =? 10 then String "\" "n"
  else if n =? 13 then String "\" "r"
  else if n =? 9 then String "\" "t"
  else if n =? 12 then String "\" "f"
  else if n =? 8 then String "\" "b"
  else if (32 <=? n) && (n <=? 126) then String c EmptyString
  else String "\" (String "u" (hex4 n)).

Fixpoint escape (s : string) : string :=
  match s with
  | EmptyString => EmptyString
  | String c r => escape_char c +:+ escape r
  end.

Definition quote (s : string) : string :=
  String (ascii_of_N 34) (escape s) +:+ String (ascii_of_N 34) EmptyString.

Fixpoint join (sep : string) (parts : list string) : string :=
  match parts with
  | [] => EmptyString
  | [p] => p
  | p :: r => p +:+ sep +:+ join sep r
  end.

(** [json.dumps(v, separators=(',', ':'))] *)
Fixpoint dumps (v : value) : string :=
  match v with
  | Null => "null"
  | Bool true => "true"
  | Bool false => "false"
  | Int n => Py.str n
  | Str s => quote s
  | Array items => "[" +:+ join "," (map dumps items) +:+ "]"
  | Object members =>
      "{" +:+ join "," (map (fun kv => quote (fst kv) +:+ ":" +:+ dumps (snd kv)) members)
          +:+ "}"
  end.

End Json.


(** ** [payments/phonepe_service.py] *)

Definition bind {A B} (m : result A) (k : A -> result B) : result B :=
  match m with
  | Return a => k a
  | Raise e => Raise e
  end.

Notation "'let*' x ':=' m 'in' k" := (bind m (fun x => k))
  (at level 10, x name, m at level 100, k at level 200).

(** [l[i]] on a list *)
Definition getitem {A} (l : list A) (i : nat) : result A :=
  match l !! i with
  | Some a => Return a
  | None => Raise IndexError
  end.

Module Hmac.

(** [hmac.compare_digest(a, b)] on two texts: both must be ASCII. *)
Definition compare_digest (a b : string) : result bool :=
  if Py.isascii a && Py.isascii b then Return (String.eqb a b) else Raise TypeError.

End Hmac.

Module PhonePeService.

Record t : Type := Service
  { environment : string;
    merchant_id : string;
    salt_key : string;
    salt_index : string;
    base_url : string;
    callback_url : string;
    redirect_url : string }.

(** [getattr(settings, name, default)] *)
Definition getattr (settings : gmap string string) (name fallback : string) : string :=
  default fallback (settings !! name).

Definition init (settings : gmap string string) : t :=
  let env := getattr settings "PHONEPE_ENVIRONMENT" "sandbox" in
  if String.eqb env "production" then
    Service env
      (getattr settings "PHONEPE_PROD_MERCHANT_ID" EmptyString)
      (getattr settings "PHONEPE_PROD_SALT_KEY" EmptyString)
      (getattr settings "PHONEPE_PROD_SALT_INDEX" "1")
      (getattr settings "PHONEPE_PROD_PAY_URL"
               "https://api.phonepe.com/apis/hermes/pg/v1/pay")
      (getattr settings "PHONEPE_CALLBACK_URL" EmptyString)
      (getattr settings "PHONEPE_REDIRECT_URL" EmptyString)
  else
    Service env
      (getattr settings "PHONEPE_MERCHANT_ID" "PGTESTPAYUAT86")
      (getattr settings "PHONEPE_SALT_KEY" "96434309-7796-489d-8924-ab56988a6076")
      (getattr settings "PHONEPE_SALT_INDEX" "1")
      (getattr settings "PHONEPE_SANDBOX_PAY_URL"
               "https://api-preprod.phonepe.com/apis/pg-sandbox/pg/v1/pay")
      (getattr settings "PHONEPE_CALLBACK_URL" EmptyString)
      (getattr settings "PHONEPE_REDIRECT_URL" EmptyString).

Definition _generate_x_verify_header (self : t) (payload_string endpoint : string)
  : string :=
  let message := payload_string +:+ endpoint +:+ salt_key self in
  let sha256_hash := Hashlib.sha256_hexdigest (Py.encode message) in
  sha256_hash +:+ "###" +:+ salt_index self.

Definition _encode_base64 (payload : Json.value) : string :=
  let payload_string := Json.dumps payload in
  Base64.b64encode (Py.encode payload_string).

(** The amount [initiate_payment] receives: a two-place decimal (the
    [DecimalField] of a fee, or its text) or a [float]. *)
Inductive amount : Type :=
  | Decimal2 (hundredths : Z)
  | Float (x : spec_float).

Definition float_ (a : amount) : spec_float :=
  match a with
  | Decimal2 h => PyFloat.of_decimal2 h
  | Float x => x
  end.

(** [amount_in_paise = int(float(amount) * 100)] *)
Definition amount_in_paise (a : amount) : result Z :=
  PyFloat.to_int (PyFloat.mul (float_ a) (PyFloat.of_int 100)).

(** What [initiate_payment] has built when it calls [requests.post]. *)
Record pay_request : Type := PayRequest
  { transaction_id : string;
    payload : Json.value;
    encoded_payload : string;
    headers : list (string * string);
    request_payload : Json.value;
    url : string }.

(** [initiate_payment] up to the HTTP call; [uuid4_hex] is the value of
    [uuid.uuid4().hex]. *)
Definition initiate_payment_request (self : t) (payment_id : string) (a : amount)
    (customer_info : list (string * Json.value)) (additional_info : Json.value)
    (uuid4_hex : string) : result pay_request :=
  let* paise := amount_in_paise a in
  let txn := "TXN" +:+ payment_id +:+ Py.upper (Py.slice_to 8 uuid4_hex) in
  let mobile := Json.get customer_info "mobile" (Json.Str EmptyString) in
  let payload0 :=
    [("merchantId", Json.Str (merchant_id self));
     ("merchantTransactionId", Json.Str txn);
     ("merchantUserId", mobile);
     ("amount", Json.Int paise);
     ("redirectUrl", Json.Str (redirect_url self +:+ "?transaction_id=" +:+ txn));
     ("redirectMode", Json.Str "REDIRECT");
     ("callbackUrl", Json.Str (callback_url self));
     ("mobileNumber", mobile);
     ("paymentInstrument", Json.Object [("type", Json.Str "PAY_PAGE")])] in
  let email := Json.get customer_info "email" Json.Null in
  let payload1 :=
    if Json.truthy email then Json.set payload0 "merchantUserId" email else payload0 in
  let payload2 :=
    if Json.truthy additional_info
    then Json.set payload1 "additionalInfo" additional_info else payload1 in
  let encoded := _encode_base64 (Json.Object payload2) in
  let endpoint := "/pg/v1/pay" in
  let x_verify := _generate_x_verify_header self encoded endpoint in
  Return (PayRequest txn (Json.Object payload2) encoded
            [("Content-Type", "application/json"); ("X-VERIFY", x_verify);
             ("Accept", "application/json")]
            (Json.Object [("request", Json.Str encoded)])
            (base_url self)).

Definition verify_webhook_signature (self : t) (payload x_verify_header : string)
  : bool :=
  except_Exception
    (let parts := Py.split3 x_verify_header in
     if negb (Nat.eqb (length parts) 2) then Return false
     else
       let* received_hash := getitem parts 0 in
       let* salt_index := getitem parts 1 in
       let message := payload +:+ salt_key self in
       let calculated_hash := Hashlib.sha256_hexdigest (Py.encode message) in
       Hmac.compare_digest calculated_hash received_hash)
    false.

End PhonePeService.

(** ** [consultations/models.py] *)

Module Consultations.

(** [STATUS_CHOICES] and [PAYMENT_STATUS_CHOICES] *)
Inductive Status : Type :=
  | scheduled
  | patient_checked_in
  | ready_for_consultation
  | in_progress
  | completed
  | cancelled
  | no_show
  | rescheduled
  | overdue.

Inductive PaymentStatus : Type := pending | paid | failed | refunded.

#[global] Instance Status_eq_dec : EqDecision Status.
Proof. solve_decision. Defined.

(** [status in [...]] *)
Definition status_in (s : Status) (l : list Status) : bool := bool_decide (s ∈ l).

(** A user account, by its key; the model never looks inside. *)
Definition User : Type := nat.

(** The columns of [Consultation] that its methods read or write, with
    the fee, payment and cancellation columns.  The foreign keys to
    patient, doctor, clinic and slot, the free texts and the columns the
    storage layer fills by itself ([created_at], [updated_at]) are left out:
    no method of the class touches them. *)
Record Consultation : Type := MkConsultation
  { id : string;
    scheduled_date : Z;
    scheduled_time : Z;
    duration : Z;
    status : Status;
    actual_start_time : option Z;
    actual_end_time : option Z;
    checked_in_at : option Z;
    checked_in_by : option User;
    ready_for_consultation_at : option Z;
    ready_marked_by : option User;
    consultation_fee : Z;
    is_paid : bool;
    payment_status : PaymentStatus;
    cancelled_by : option User;
    cancellation_reason : string;
    cancelled_at : option Z;
    reschedule_requested : bool;
    reschedule_requested_at : option Z;
    reschedule_requested_by : option User;
    reschedule_reason : string;
    reschedule_approved : bool;
    reschedule_approved_by : option User;
    reschedule_approved_at : option Z;
    rescheduled_at : option Z }.

(** Assignments [self.field = v]. *)

Definition set_id (v : string) (c : Consultation) : Consultation :=
  MkConsultation v (scheduled_date c) (scheduled_time c) (duration c) (status c)
    (actual_start_time c) (actual_end_time c) (checked_in_at c) (checked_in_by c)
    (ready_for_consultation_at c) (ready_marked_by c) (consultation_fee c) (is_paid c)
    (payment_status c) (cancelled_by c) (cancellation_reason c) (cancelled_at c)
    (reschedule_requested c) (reschedule_requested_at c) (reschedule_requested_by c)
    (reschedule_reason c) (reschedule_approved c) (reschedule_approved_by c)
    (reschedule_approved_at c) (rescheduled_at c).

Definition set_scheduled_date (v : Z) (c : Consultation) : Consultation :=
  MkConsultation (id c) v (scheduled_time c) (duration c) (status c)
    (actual_start_time c) (actual_end_time c) (checked_in_at c) (checked_in_by c)
    (ready_for_consultation_at c) (ready_marked_by c) (consultation_fee c) (is_paid c)
    (payment_status c) (cancelled_by c) (cancellation_reason c) (cancelled_at c)
    (reschedule_requested c) (reschedule_requested_at c) (reschedule_requested_by c)
    (reschedule_reason c) (reschedule_approved c) (reschedule_approved_by c)
    (reschedule_approved_at c) (rescheduled_at c).

Definition set_scheduled_time (v : Z) (c : Consultation) : Consultation :=
  MkConsultation (id c) (scheduled_date c) v (duration c) (status c)
    (actual_start_time c) (actual_end_time c) (checked_in_at c) (checked_in_by c)
    (ready_for_consultation_at c) (ready_marked_by c) (consultation_fee c) (is_paid c)
    (payment_status c) (cancelled_by c) (cancellation_reason c) (cancelled_at c)
    (reschedule_requested c) (reschedule_requested_at c) (reschedule_requested_by c)
    (reschedule_reason c) (reschedule_approved c) (reschedule_approved_by c)
    (reschedule_approved_at c) (rescheduled_at c).

Definition set_status (v : Status) (c : Consultation) : Consultation :=
  MkConsultation (id c) (scheduled_date c) (scheduled_time c) (duration c) v
    (actual_start_time c) (actual_end_time c) (checked_in_at c) (checked_in_by c)
    (ready_for_consultation_at c) (ready_marked_by c) (consultation_fee c) (is_paid c)
    (payment_status c) (cancelled_by c) (cancellation_reason c) (cancelled_at c)
    (reschedule_requested c) (reschedule_requested_at c) (reschedule_requested_by c)
    (reschedule_reason c) (reschedule_approved c) (reschedule_approved_by c)
    (reschedule_approved_at c) (rescheduled_at c).

Definition set_actual_start_time (v : option Z) (c : Consultation) : Consultation :=
  MkConsultation (id c) (scheduled_date c) (scheduled_time c) (duration c) (status c)
    v (actual_end_time c) (checked_in_at c) (checked_in_by c)
    (ready_for_consultation_at c) (ready_marked_by c) (consultation_fee c) (is_paid c)
    (payment_status c) (cancelled_by c) (cancellation_reason c) (cancelled_at c)
    (reschedule_requested c) (reschedule_requested_at c) (reschedule_requested_by c)
    (reschedule_reason c) (reschedule_approved c) (reschedule_approved_by c)
    (reschedule_approved_at c) (rescheduled_at c).

Definition set_checked_in_at (v : option Z) (c : Consultation) : Consultation :=
  MkConsultation (id c) (scheduled_date c) (scheduled_time c) (duration c) (status c)
    (actual_start_time c) (actual_end_time c) v (checked_in_by c)
    (ready_for_consultation_at c) (ready_marked_by c) (consultation_fee c) (is_paid c)
    (payment_status c) (cancelled_by c) (cancellation_reason c) (cancelled_at c)
    (reschedule_requested c) (reschedule_requested_at c) (reschedule_requested_by c)
    (reschedule_reason c) (reschedule_approved c) (reschedule_approved_by c)
    (reschedule_approved_at c) (rescheduled_at c).

Definition set_checked_in_by (v : option User) (c : Consultation) : Consultation :=
  MkConsultation (id c) (scheduled_date c) (scheduled_time c) (duration c) (status c)
    (actual_start_time c) (actual_end_time c) (checked_in_at c) v
    (ready_for_consultation_at c) (ready_marked_by c) (consultation_fee c) (is_paid c)
    (payment_status c) (cancelled_by c) (cancellation_reason c) (cancelled_at c)
    (reschedule_requested c) (reschedule_requested_at c) (reschedule_requested_by c)
    (reschedule_reason c) (reschedule_approved c) (reschedule_approved_by c)
    (reschedule_approved_at c) (rescheduled_at c).

Definition set_ready_for_consultation_at (v : option Z) (c : Consultation) : Consultation :=
  MkConsultation (id c) (scheduled_date c) (scheduled_time c) (duration c) (status c)
    (actual_start_time c) (actual_end_time c) (checked_in_at c) (checked_in_by c) v
    (ready_marked_by c) (consultation_fee c) (is_paid c) (payment_status c)
    (cancelled_by c) (cancellation_reason c) (cancelled_at c) (reschedule_requested c)
    (reschedule_requested_at c) (reschedule_requested_by c) (reschedule_reason c)
    (reschedule_approved c) (reschedule_approved_by c) (reschedule_approved_at c)
    (rescheduled_at c).

Definition set_ready_marked_by (v : option User) (c : Consultation) : Consultation :=
  MkConsultation (id c) (scheduled_date c) (scheduled_time c) (duration c) (status c)
    (actual_start_time c) (actual_end_time c) (checked_in_at c) (checked_in_by c)
    (ready_for_consultation_at c) v (consultation_fee c) (is_paid c) (payment_status
    c) (cancelled_by c) (cancellation_reason c) (cancelled_at c) (reschedule_requested
    c) (reschedule_requested_at c) (reschedule_requested_by c) (reschedule_reason c)
    (reschedule_approved c) (reschedule_approved_by c) (reschedule_approved_at c)
    (rescheduled_at c).

Definition set_reschedule_requested (v : bool) (c : Consultation) : Consultation :=
  MkConsultation (id c) (scheduled_date c) (scheduled_time c) (duration c) (status c)
    (actual_start_time c) (actual_end_time c) (checked_in_at c) (checked_in_by c)
    (ready_for_consultation_at c) (ready_marked_by c) (consultation_fee c) (is_paid c)
    (payment_status c) (cancelled_by c) (cancellation_reason c) (cancelled_at c) v
    (reschedule_requested_at c) (reschedule_requested_by c) (reschedule_reason c)
    (reschedule_approved c) (reschedule_approved_by c) (reschedule_approved_at c)
    (rescheduled_at c).

Definition set_reschedule_requested_at (v : option Z) (c : Consultation) : Consultation :=
  MkConsultation (id c) (scheduled_date c) (scheduled_time c) (duration c) (status c)
    (actual_start_time c) (actual_end_time c) (checked_in_at c) (checked_in_by c)
    (ready_for_consultation_at c) (ready_marked_by c) (consultation_fee c) (is_paid c)
    (payment_status c) (cancelled_by c) (cancellation_reason c) (cancelled_at c)
    (reschedule_requested c) v (reschedule_requested_by c) (reschedule_reason c)
    (reschedule_approved c) (reschedule_approved_by c) (reschedule_approved_at c)
    (rescheduled_at c).

Definition set_reschedule_requested_by (v : option User) (c : Consultation) : Consultation :=
  MkConsultation (id c) (scheduled_date c) (scheduled_time c) (duration c) (status c)
    (actual_start_time c) (actual_end_time c) (checked_in_at c) (checked_in_by c)
    (ready_for_consultation_at c) (ready_marked_by c) (consultation_fee c) (is_paid c)
    (payment_status c) (cancelled_by c) (cancellation_reason c) (cancelled_at c)
    (reschedule_requested c) (reschedule_requested_at c) v (reschedule_reason c)
    (reschedule_approved c) (reschedule_approved_by c) (reschedule_approved_at c)
    (rescheduled_at c).

Definition set_reschedule_reason (v : string) (c : Consultation) : Consultation :=
  MkConsultation (id c) (scheduled_date c) (scheduled_time c) (duration c) (status c)
    (actual_start_time c) (actual_end_time c) (checked_in_at c) (checked_in_by c)
    (ready_for_consultation_at c) (ready_marked_by c) (consultation_fee c) (is_paid c)
    (payment_status c) (cancelled_by c) (cancellation_reason c) (cancelled_at c)
    (reschedule_requested c) (reschedule_requested_at c) (reschedule_requested_by c) v
    (reschedule_approved c) (reschedule_approved_by c) (reschedule_approved_at c)
    (rescheduled_at c).

Definition set_reschedule_approved (v : bool) (c : Consultation) : Consultation :=
  MkConsultation (id c) (scheduled_date c) (scheduled_time c) (duration c) (status c)
    (actual_start_time c) (actual_end_time c) (checked_in_at c) (checked_in_by c)
    (ready_for_consultation_at c) (ready_marked_by c) (consultation_fee c) (is_paid c)
    (payment_status c) (cancelled_by c) (cancellation_reason c) (cancelled_at c)
    (reschedule_requested c) (reschedule_requested_at c) (reschedule_requested_by c)
    (reschedule_reason c) v (reschedule_approved_by c) (reschedule_approved_at c)
    (rescheduled_at c).

Definition set_reschedule_approved_by (v : option User) (c : Consultation) : Consultation :=
  MkConsultation (id c) (scheduled_date c) (scheduled_time c) (duration c) (status c)
    (actual_start_time c) (actual_end_time c) (checked_in_at c) (checked_in_by c)
    (ready_for_consultation_at c) (ready_marked_by c) (consultation_fee c) (is_paid c)
    (payment_status c) (cancelled_by c) (cancellation_reason c) (cancelled_at c)
    (reschedule_requested c) (reschedule_requested_at c) (reschedule_requested_by c)
    (reschedule_reason c) (reschedule_approved c) v (reschedule_approved_at c)
    (rescheduled_at c).

Definition set_reschedule_approved_at (v : option Z) (c : Consultation) : Consultation :=
  MkConsultation (id c) (scheduled_date c) (scheduled_time c) (duration c) (status c)
    (actual_start_time c) (actual_end_time c) (checked_in_at c) (checked_in_by c)
    (ready_for_consultation_at c) (ready_marked_by c) (consultation_fee c) (is_paid c)
    (payment_status c) (cancelled_by c) (cancellation_reason c) (cancelled_at c)
    (reschedule_requested c) (reschedule_requested_at c) (reschedule_requested_by c)
    (reschedule_reason c) (reschedule_approved c) (reschedule_approved_by c) v
    (rescheduled_at c).

Definition set_rescheduled_at (v : option Z) (c : Consultation) : Consultation :=
  MkConsultation (id c) (scheduled_date c) (scheduled_time c) (duration c) (status c)
    (actual_start_time c) (actual_end_time c) (checked_in_at c) (checked_in_by c)
    (ready_for_consultation_at c) (ready_marked_by c) (consultation_fee c) (is_paid c)
    (payment_status c) (cancelled_by c) (cancellation_reason c) (cancelled_at c)
    (reschedule_requested c) (reschedule_requested_at c) (reschedule_requested_by c)
    (reschedule_reason c) (reschedule_approved c) (reschedule_approved_by c)
    (reschedule_approved_at c) v.

(** [ConsultationReschedule]: one row of the reschedule history. *)
Record ConsultationReschedule : Type := MkReschedule
  { consultation : string;
    old_date : Z;
    old_time : Z;
    new_date : Z;
    new_time : Z;
    reason : string;
    requested_by : option User }.

(** [ConsultationReceipt]; [pk] is the automatic key, [None] before the
    first save. *)
Record ConsultationReceipt : Type := MkReceipt
  { pk : option nat;
    receipt_consultation : string;
    receipt_number : string;
    amount : Z;
    payment_method : string;
    receipt_payment_status : string;
    issued_by : User }.

Definition set_receipt_number (v : string) (r : ConsultationReceipt)
  : ConsultationReceipt :=
  MkReceipt (pk r) (receipt_consultation r) v (amount r) (payment_method r)
    (receipt_payment_status r) (issued_by r).

Definition set_pk (v : option nat) (r : ConsultationReceipt) : ConsultationReceipt :=
  MkReceipt v (receipt_consultation r) (receipt_number r) (amount r)
    (payment_method r) (receipt_payment_status r) (issued_by r).

(** *** The world around a model instance

    The three tables, the clock and the current time zone.  The table of
    consultations is keyed by the primary key [id]; the other two are kept
    in the order of their automatic keys.  [clock k] is what the [k]-th
    call of [timezone.now()] returns and [reads] counts the calls made so
    far.  [utcoffset] gives the offset of the current time zone at a local
    time.  Constraints of the storage layer (uniqueness, non-null columns)
    are not modelled. *)
Record World : Type := MkWorld
  { consultations : gmap string Consultation;
    reschedule_history : list ConsultationReschedule;
    receipts : list ConsultationReceipt;
    clock : nat -> Z;
    reads : nat;
    utcoffset : Z -> Z }.

Definition set_consultations (v : gmap string Consultation) (w : World) : World :=
  MkWorld v (reschedule_history w) (receipts w) (clock w) (reads w) (utcoffset w).

Definition set_reschedule_history (v : list ConsultationReschedule) (w : World) : World :=
  MkWorld (consultations w) v (receipts w) (clock w) (reads w) (utcoffset w).

Definition set_receipts (v : list ConsultationReceipt) (w : World) : World :=
  MkWorld (consultations w) (reschedule_history w) v (clock w) (reads w) (utcoffset w).

Definition tick (w : World) : World :=
  MkWorld (consultations w) (reschedule_history w) (receipts w) (clock w)
    (S (reads w)) (utcoffset w).

(** *** Methods as state transformers

    A method runs on an instance [self] in a world and ends with a value or
    an exception, the instance and the world as it left them.  What was
    assigned before an exception stays assigned. *)
Record outcome (S A : Type) : Type := Outcome
  { returned : result A;
    self_after : S;
    world_after : World }.

Arguments Outcome {S A} _ _ _.
Arguments returned {S A} _.
Arguments self_after {S A} _.
Arguments world_after {S A} _.

Definition M (S A : Type) : Type := S -> World -> outcome S A.

Definition ret {S A} (a : A) : M S A := fun s w => Outcome (Return a) s w.

Definition raise {S A} (e : Exception) : M S A := fun s w => Outcome (Raise e) s w.

Definition mbind {S A B} (m : M S A) (k : A -> M S B) : M S B := fun s w =>
  match m s w with
  | Outcome (Return a) s' w' => k a s' w'
  | Outcome (Raise e) s' w' => Outcome (Raise e) s' w'
  end.

Notation "'do' x <- m ; k" := (mbind m (fun x => k))
  (at level 10, x name, m at level 100, k at level 200).

Notation "'run' m ; k" := (mbind m (fun _ => k))
  (at level 10, m at level 100, k at level 200).

(** [self.field] *)
Definition attr {S A} (f : S -> A) : M S A := fun s w => Outcome (Return (f s)) s w.

(** [self.field = v] *)
Definition assign {S} (f : S -> S) : M S unit := fun s w => Outcome (Return tt) (f s) w.

(** A query on the tables. *)
Definition query {S A} (f : World -> A) : M S A := fun s w => Outcome (Return (f w)) s w.

(** An exception of an expression passes to the method. *)
Definition lift {S A} (r : result A) : M S A := fun s w => Outcome r s w.

(** [timezone.now()] *)
Definition timezone_now {S} : M S Z := fun s w =>
  Outcome (Return (clock w (reads w))) s (tick w).

(** *** Dates and times *)

Definition microseconds_per_day : Z := 86400000000.

(** [timedelta(hours=h)] *)
Definition timedelta_hours (h : Z) : Z := h * 3600000000.

(** [timedelta(minutes=m)] *)
Definition timedelta_minutes (m : Z) : Z := m * 60000000.

(** [datetime.datetime.combine(date, time)]: a naive local time. *)
Definition combine (date time : Z) : Z := date * microseconds_per_day + time.

(** [timezone.make_aware(dt, timezone.get_current_timezone())] *)
Definition make_aware (w : World) (naive : Z) : Z := naive - utcoffset w naive.

(** *** [Consultation.save] *)

(** [queryset.order_by('id').last()]: the row of the greatest [id], texts
    compared character by character. *)
Definition later (a b : Consultation) : Consultation :=
  if String.leb (id a) (id b) then b else a.

Definition order_by_id_last (rows : gmap string Consultation) : option Consultation :=
  foldr (fun kv acc => Some (from_option (later kv.2) kv.2 acc)) None (map_to_list rows).

(** [Consultation.objects.filter(id__startswith=p)] *)
Definition filter_id_startswith (p : string) (rows : gmap string Consultation)
  : gmap string Consultation :=
  filter (fun kv => Py.startswith (id kv.2) p = true) rows.

Definition new_number (rows : gmap string Consultation) : result Z :=
  match order_by_id_last rows with
  | Some last_consultation =>
      except_ValueError_IndexError
        (let* last_number :=
           if Py.startswith (id last_consultation) "CON"
           then Py.int (Py.slice_from 3 (id last_consultation))
           else
             let con_consultations := filter_id_startswith "CON" rows in
             match order_by_id_last con_consultations with
             | Some last_con => Py.int (Py.slice_from 3 (id last_con))
             | None => Return 0
             end in
         Return (last_number + 1))
        (Return 1)
  | None => Return 1
  end.

(** [super().save()]: the row of this key is written. *)
Definition super_save : M Consultation unit := fun c w =>
  Outcome (Return tt) c (set_consultations (<[id c := c]> (consultations w)) w).

Definition save : M Consultation unit :=
  do self_id <- attr id;
  run (if String.eqb self_id EmptyString
       then
         do rows <- query consultations;
         do number <- lift (new_number rows);
         assign (set_id ("CON" +:+ Py.format_0d 3 number))
       else ret tt);
  super_save.

(** *** Derived properties *)

Definition scheduled_datetime : M Consultation Z := fun c w =>
  Outcome (Return (make_aware w (combine (scheduled_date c) (scheduled_time c)))) c w.

Definition is_upcoming : M Consultation bool :=
  do dt <- scheduled_datetime;
  do now <- timezone_now;
  do st <- attr status;
  ret ((now <? dt) && bool_decide (st = scheduled)).

Definition is_overdue : M Consultation bool :=
  do st <- attr status;
  if status_in st [completed; cancelled; rescheduled] then ret false
  else
    do dt <- scheduled_datetime;
    do now <- timezone_now;
    ret (dt <? now).

Definition is_eligible_for_reschedule : M Consultation bool :=
  do st <- attr status;
  if status_in st [completed; cancelled] then ret false
  else
    do now <- timezone_now;
    let grace_period := now - timedelta_hours 1 in
    do dt <- scheduled_datetime;
    ret (dt <? grace_period).

Definition is_checked_in : M Consultation bool :=
  do st <- attr status;
  ret (status_in st [patient_checked_in; ready_for_consultation; in_progress; completed]).

Definition is_ready_for_consultation : M Consultation bool :=
  do st <- attr status;
  ret (status_in st [ready_for_consultation; in_progress; completed]).

(** *** The reschedule workflow *)

Definition request_reschedule (requested_by : User) (reason : string)
  : M Consultation bool :=
  do eligible <- is_eligible_for_reschedule;
  if negb eligible
  then raise (ValidationError "This consultation is not eligible for reschedule")
  else
    run assign (set_reschedule_requested true);
    do now <- timezone_now;
    run assign (set_reschedule_requested_at (Some now));
    run assign (set_reschedule_requested_by (Some requested_by));
    run assign (set_reschedule_reason reason);
    run assign (set_status overdue);
    run save;
    ret true.

Definition approve_reschedule (approved_by : User) : M Consultation bool :=
  do requested <- attr reschedule_requested;
  if negb requested
  then raise (ValidationError "No reschedule request to approve")
  else
    run assign (set_reschedule_approved true);
    run assign (set_reschedule_approved_by (Some approved_by));
    do now <- timezone_now;
    run assign (set_reschedule_approved_at (Some now));
    run save;
    ret true.

(** [ConsultationReschedule.objects.create(...)] *)
Definition create_reschedule (row : ConsultationReschedule) : M Consultation unit :=
  fun c w => Outcome (Return tt) c
               (set_reschedule_history (reschedule_history w ++ [row]) w).

Definition apply_reschedule (new_date new_time : Z) (reason : string)
  : M Consultation bool :=
  do approved <- attr reschedule_approved;
  if negb approved
  then raise (ValidationError "Reschedule must be approved before applying")
  else
    do old_date <- attr scheduled_date;
    do old_time <- attr scheduled_time;
    run assign (set_scheduled_date new_date);
    run assign (set_scheduled_time new_time);
    run assign (set_status rescheduled);
    run assign (set_reschedule_requested false);
    run assign (set_reschedule_approved false);
    run assign (set_reschedule_requested_at None);
    run assign (set_reschedule_approved_at None);
    do now <- timezone_now;
    run assign (set_rescheduled_at (Some now));
    run assign (set_reschedule_reason EmptyString);
    run save;
    do self_id <- attr id;
    do requester <- attr reschedule_requested_by;
    run create_reschedule
          (MkReschedule self_id old_date old_time new_date new_time reason requester);
    ret true.

(** *** Check-in, ready and start *)

Definition check_in_patient (checked_in_by : User) : M Consultation bool :=
  do st <- attr status;
  if bool_decide (st = scheduled) then
    run assign (set_status patient_checked_in);
    do now <- timezone_now;
    run assign (set_checked_in_at (Some now));
    run assign (set_checked_in_by (Some checked_in_by));
    run save;
    ret true
  else ret false.

Definition mark_ready_for_consultation (marked_by : User) : M Consultation bool :=
  do st <- attr status;
  if status_in st [scheduled; patient_checked_in] then
    run assign (set_status ready_for_consultation);
    do now <- timezone_now;
    run assign (set_ready_for_consultation_at (Some now));
    run assign (set_ready_marked_by (Some marked_by));
    run save;
    ret true
  else ret false.

Definition start_consultation : M Consultation bool :=
  do st <- attr status;
  if status_in st [ready_for_consultation; patient_checked_in] then
    run assign (set_status in_progress);
    do now <- timezone_now;
    run assign (set_actual_start_time (Some now));
    run save;
    ret true
  else ret false.

(** The methods of [Consultation] that change an instance or a table,
    each with its arguments. *)
Inductive Operation : Type :=
  | Save
  | RequestReschedule (requested_by : User) (reason : string)
  | ApproveReschedule (approved_by : User)
  | ApplyReschedule (new_date new_time : Z) (reason : string)
  | CheckInPatient (checked_in_by : User)
  | MarkReadyForConsultation (marked_by : User)
  | StartConsultation.

Definition perform (op : Operation) : M Consultation bool :=
  match op with
  | Save => run save; ret true
  | RequestReschedule u r => request_reschedule u r
  | ApproveReschedule u => approve_reschedule u
  | ApplyReschedule d t r => apply_reschedule d t r
  | CheckInPatient u => check_in_patient u
  | MarkReadyForConsultation u => mark_ready_for_consultation u
  | StartConsultation => start_consultation
  end.

(** *** [ConsultationReceipt.save] *)

Definition receipt_new_number (rows : list ConsultationReceipt) : result Z :=
  match last rows with
  | Some last_receipt =>
      let* last_number := Py.int (Py.slice_from 3 (receipt_number last_receipt)) in
      Return (last_number + 1)
  | None => Return 1
  end.

(** [super().save()]: a new row goes to the end with the next key, a row
    that has a key is written in place. *)
Definition receipt_super_save : M ConsultationReceipt unit := fun r w =>
  match pk r with
  | None =>
      let r' := set_pk (Some (length (receipts w))) r in
      Outcome (Return tt) r' (set_receipts (receipts w ++ [r']) w)
  | Some k => Outcome (Return tt) r (set_receipts (<[k := r]> (receipts w)) w)
  end.

Definition receipt_save : M ConsultationReceipt unit :=
  do number_text <- attr receipt_number;
  run (if String.eqb number_text EmptyString
       then
         do rows <- query receipts;
         do number <- lift (receipt_new_number rows);
         assign (set_receipt_number ("RCP" +:+ Py.format_0d 6 number))
       else ret tt);
  receipt_super_save.

(** A consultation as the model creates it: the given schedule and fee,
    every other column at its declared default, no key yet. *)
Definition new_consultation (date time fee : Z) : Consultation :=
  MkConsultation EmptyString date time 30 scheduled None None None None None None
    fee false pending None EmptyString None false None None EmptyString false None
    None None.

(** A world with empty tables, a clock that always shows [now] and a
    fixed offset of the time zone. *)
Definition empty_world (now offset : Z) : World :=
  MkWorld ∅ [] [] (fun _ => now) 0 (fun _ => offset).

(** The tables of two worlds are the same. *)
Definition same_tables (w w' : World) : Prop :=
  consultations w' = consultations w
  /\ reschedule_history w' = reschedule_history w
  /\ receipts w' = receipts w.

(** The statuses from which the specification lets a consultation be
    cancelled: all but completed, cancelled and no-show. *)
Definition non_terminal (s : Status) : bool :=
  negb (status_in s [completed; cancelled; no_show]).

End Consultations.

(** ** Vocabulary of the statements *)

Module Spec.

(** The request signature in the words of the specification: the
    hexadecimal SHA-256 of the base64 text of the compact JSON payload
    followed by the endpoint path and the salt key, then the separator and
    the salt index. *)
Definition canonical_signature (payload : Json.value)
    (endpoint salt_key salt_index : string) : string :=
  Hashlib.sha256_hexdigest
    (Py.encode (Base64.b64encode (Py.encode (Json.dumps payload))
                +:+ endpoint +:+ salt_key))
  +:+ "###" +:+ salt_index.

(** A lowercase hexadecimal digit. *)
Definition lower_hex (c : ascii) : bool :=
  let n := Py.ord c in
  ((48 <=? n) && (n <=? 57)) || ((97 <=? n) && (n <=? 102)).

(** [round(x)] of a two-place decimal amount times 100: the number of
    hundredths itself. *)
Definition exact_minor_units (a : PhonePeService.amount) : option Z :=
  match a with
  | PhonePeService.Decimal2 h => Some h
  | PhonePeService.Float _ => None
  end.

End Spec.

(** ** Sequences of operations on one consultation *)

Module Lifecycle.

Import Consultations.

(** The instance and the world after the operations of [ops], called one
    after the other on the same instance, whatever each call returned. *)
Fixpoint after (ops : list Operation) (c : Consultation) (w : World)
  : Consultation * World :=
  match ops with
  | [] => (c, w)
  | op :: rest =>
      let o := perform op c w in
      after rest (self_after o) (world_after o)
  end.

(** The reschedule columns agree with each other: an approval stands on a
    request, and a pending request has its time and its requester and has
    put the consultation in the status [overdue]. *)
Definition workflow_consistent (c : Consultation) : Prop :=
  (reschedule_approved c = true -> reschedule_requested c = true)
  /\ (reschedule_requested c = true ->
      status c = overdue
      /\ is_Some (reschedule_requested_at c)
      /\ is_Some (reschedule_requested_by c)).

(** A reschedule has been requested or applied. *)
Definition in_reschedule (s : Status) : Prop := s = overdue \/ s = rescheduled.

End Lifecycle.

(** ** Vocabulary for keys and numbers *)

Module Numbering.

(** A decimal digit. *)
Definition is_digit (c : ascii) : bool :=
  match Py.digit_value c with Some _ => true | None => false end.

(** A character that [strip] keeps. *)
Definition not_space (c : ascii) : bool := negb (Py.isspace c).

End Numbering.

(** ** [PhonePeService]: status request and webhook processing *)

Module PhonePeCalls.

Import PhonePeService.

(** What [check_payment_status] has built when it calls [requests.post]. *)
Record status_request : Type := StatusRequest
  { status_url : string;
    status_payload : Json.value;
    status_encoded_payload : string;
    status_headers : list (string * string);
    status_request_payload : Json.value }.

(** [check_payment_status] up to the HTTP call. *)
Definition check_payment_status_request (self : t) (merchant_transaction_id : string)
  : status_request :=
  let status_endpoint := "/pg/v1/status" in
  let url :=
    if String.eqb (environment self) "production"
    then "https://api.phonepe.com/apis/hermes/pg/v1/status"
    else "https://api-preprod.phonepe.com/apis/pg-sandbox/pg/v1/status" in
  let payload :=
    Json.Object [("merchantId", Json.Str (merchant_id self));
                 ("merchantTransactionId", Json.Str merchant_transaction_id)] in
  let encoded := _encode_base64 payload in
  let x_verify := _generate_x_verify_header self encoded status_endpoint in
  StatusRequest url payload encoded
    [("Content-Type", "application/json"); ("X-VERIFY", x_verify);
     ("X-MERCHANT-ID", merchant_id self); ("Accept", "application/json")]
    (Json.Object [("request", Json.Str encoded)]).

(** The payload of a webhook call: the raw text, or a structure the caller
    has already decoded. *)
Inductive webhook_data : Type :=
  | Text (raw : string)
  | Structured (v : Json.value).

(** What the [except Exception] of [process_webhook] can catch: an
    exception of the decoder, or the missing [get] of a value that is not a
    [dict]. *)
Inductive caught : Type :=
  | FromDecoder (e : Exception)
  | NoGet (v : Json.value).

Section Webhook.

(** [_decode_base64]: [json.loads] of [base64.b64decode], both of the
    library, taken as given; and [str(e)] of what was caught. *)
Variable _decode_base64 : string -> result Json.value.
Variable describe : caught -> string.

Definition failure (message : string) : Json.value :=
  Json.Object [("success", Json.Bool false); ("error", Json.Str message);
               ("response", Json.Object [])].

(** The part of [process_webhook] after the payload is a structure. *)
Definition extract (data : Json.value) : Json.value :=
  match data with
  | Json.Object d =>
      let transaction_id := Json.get d "transactionId" (Json.Str EmptyString) in
      let merchant_transaction_id :=
        Json.get d "merchantTransactionId" (Json.Str EmptyString) in
      let state := Json.get d "state" (Json.Str EmptyString) in
      let code := Json.get d "code" (Json.Str EmptyString) in
      let response_code := Json.get d "responseCode" (Json.Str EmptyString) in
      Json.Object [("success", Json.Bool true);
                   ("transaction_id", transaction_id);
                   ("merchant_transaction_id", merchant_transaction_id);
                   ("status", state);
                   ("code", code);
                   ("response_code", response_code);
                   ("response", data)]
  | other => failure ("Error processing webhook: " +:+ describe (NoGet other))
  end.

Definition process_webhook (self : t) (data : webhook_data) (x_verify_header : string)
  : Json.value :=
  match data with
  | Text raw =>
      if negb (verify_webhook_signature self raw x_verify_header)
      then failure "Invalid webhook signature"
      else
        match _decode_base64 raw with
        | Return decoded => extract decoded
        | Raise e => failure ("Error processing webhook: " +:+ describe (FromDecoder e))
        end
  | Structured v => extract v
  end.

End Webhook.

(** [result.get('success')] is [True]. *)
Definition succeeded (result : Json.value) : Prop :=
  exists d, result = Json.Object d /\ Json.get d "success" Json.Null = Json.Bool true.

End PhonePeCalls.

(** ** Vocabulary for the amount conversion *)

Module Amounts.

(** The minor units computed for [h] hundredths are [h] or [h - 1]. *)
Definition within_one (h : Z) : bool :=
  match PhonePeService.amount_in_paise (PhonePeService.Decimal2 h) with
  | Return v => (v =? h) || (v =? h - 1)
  | Raise _ => false
  end.

(** The minor units computed for [k] whole major units are [100 * k]. *)
Definition whole_exact (k : Z) : bool :=
  match PhonePeService.amount_in_paise (PhonePeService.Decimal2 (100 * k)) with
  | Return v => v =? 100 * k
  | Raise _ => false
  end.

(** [f] holds of 0, 1, ... below [n]: a loop with a counter. *)
Definition check_below (f : Z -> bool) (n : N) : bool :=
  snd (N.iter n (fun s => (fst s + 1, snd s && f (fst s))) (0, true)).

End Amounts.

(** ** [eclinic/management/commands/migrate_patients_to_clinics.py] *)

Module Migration.

(** The rows the command reads and writes, with the columns it uses.  Keys
    of users and clinics are numbers. *)
Record UserRow : Type := MkUser
  { user_id : nat;
    role : string }.

Record ConsultationRow : Type := MkConsultationRow
  { patient : nat;
    clinic : option nat }.

Record ClinicPatient : Type := MkClinicPatient
  { cp_clinic : nat;
    cp_patient : nat;
    registration_source : string;
    registered_by : option nat;
    is_active : bool }.

Record Database : Type := MkDatabase
  { users : list UserRow;
    clinics : list nat;
    consultations : list ConsultationRow;
    clinic_patients : list ClinicPatient }.

(** What the command writes to its output, line by line, without the
    wording and the colours. *)
Inductive line : Type :=
  | NoClinic (patient : nat)
  | AlreadyRegistered (patient clinic : nat)
  | Migrated (patient clinic count : nat)
  | ClinicNotFound (clinic patient : nat).

(** The table being filled, the three counters and the output so far. *)
Record progress : Type := MkProgress
  { table : list ClinicPatient;
    migrated_count : nat;
    already_exists_count : nat;
    no_clinic_count : nat;
    output : list line }.

(** [User.objects.filter(role='patient')] *)
Definition patients (db : Database) : list UserRow :=
  filter (fun u => role u = "patient") (users db).

(** [.values('clinic').annotate(consultation_count=Count('id'))]: one entry
    per clinic with the number of its rows. *)
Fixpoint add_count (c : nat) (groups : list (nat * nat)) : list (nat * nat) :=
  match groups with
  | [] => [(c, 1%nat)]
  | (c', n) :: rest =>
      if Nat.eqb c' c then (c', S n) :: rest else (c', n) :: add_count c rest
  end.

Definition count_by_clinic (rows : list ConsultationRow) (p : nat) : list (nat * nat) :=
  fold_left
    (fun groups row =>
       if Nat.eqb (patient row) p
       then match clinic row with Some c => add_count c groups | None => groups end
       else groups)
    rows [].

(** [.order_by('-consultation_count')]: greatest count first; entries of
    equal count stay in the order they had. *)
Fixpoint insert_by_count (e : nat * nat) (sorted : list (nat * nat)) : list (nat * nat) :=
  match sorted with
  | [] => [e]
  | x :: rest =>
      if Nat.ltb (snd x) (snd e) then e :: sorted else x :: insert_by_count e rest
  end.

Definition order_by_count (groups : list (nat * nat)) : list (nat * nat) :=
  fold_left (fun sorted e => insert_by_count e sorted) groups [].

Definition patient_consultations (db : Database) (p : nat) : list (nat * nat) :=
  order_by_count (count_by_clinic (consultations db) p).

(** [ClinicPatient.objects.filter(clinic=clinic, patient=patient).exists()] *)
Definition exists_registration (rows : list ClinicPatient) (c p : nat) : bool :=
  existsb (fun r => Nat.eqb (cp_clinic r) c && Nat.eqb (cp_patient r) p) rows.

(** [Clinic.objects.get(id=clinic_id)] finds the clinic. *)
Definition clinic_found (db : Database) (c : nat) : bool := existsb (Nat.eqb c) (clinics db).

(** The body of the inner loop, for one clinic of one patient. *)
Definition register (db : Database) (dry_run : bool) (p : nat)
    (st : progress) (entry : nat * nat) : progress :=
  let clinic_id := fst entry in
  let consultation_count := snd entry in
  if negb (clinic_found db clinic_id) then
    MkProgress (table st) (migrated_count st) (already_exists_count st)
      (no_clinic_count st) (output st ++ [ClinicNotFound clinic_id p])
  else if exists_registration (table st) clinic_id p then
    MkProgress (table st) (migrated_count st) (S (already_exists_count st))
      (no_clinic_count st) (output st ++ [AlreadyRegistered p clinic_id])
  else
    MkProgress
      (if dry_run then table st
       else table st ++ [MkClinicPatient clinic_id p "migrated" None true])
      (S (migrated_count st)) (already_exists_count st) (no_clinic_count st)
      (output st ++ [Migrated p clinic_id consultation_count]).

(** The body of the outer loop, for one patient. *)
Definition migrate_patient (db : Database) (dry_run : bool)
    (st : progress) (u : UserRow) : progress :=
  match patient_consultations db (user_id u) with
  | [] =>
      MkProgress (table st) (migrated_count st) (already_exists_count st)
        (S (no_clinic_count st)) (output st ++ [NoClinic (user_id u)])
  | groups => fold_left (register db dry_run (user_id u)) groups st
  end.

(** [Command.handle]: the progress when the loop over the patients ends. *)
Definition handle (dry_run : bool) (db : Database) : progress :=
  fold_left (migrate_patient db dry_run) (patients db)
    (MkProgress (clinic_patients db) 0 0 0 []).

(** The database after the command. *)
Definition migrated (dry_run : bool) (db : Database) : Database :=
  MkDatabase (users db) (clinics db) (consultations db) (table (handle dry_run db)).

(** The patient has a consultation with the clinic. *)
Definition consulted (db : Database) (p c : nat) : Prop :=
  exists row, In row (consultations db) /\ patient row = p /\ clinic row = Some c.

(** A row as a real run creates it, for a clinic that exists. *)
Definition created_row (db : Database) (r : ClinicPatient) : Prop :=
  registration_source r = "migrated" /\ registered_by r = None /\ is_active r = true
  /\ clinic_found db (cp_clinic r) = true.

(** Two states report the same: equal counters and equal output. *)
Definition same_report (a b : progress) : Prop :=
  migrated_count a = migrated_count b
  /\ already_exists_count a = already_exists_count b
  /\ no_clinic_count a = no_clinic_count b
  /\ output a = output b.

End Migration.

(** ** [Consultation.actual_duration] *)

Module Durations.

Import Consultations.

(** [timedelta.total_seconds()]: the microseconds divided by 10^6, as a
    [float]. *)
Definition total_seconds (microseconds : Z) : spec_float :=
  SFdiv PyFloat.prec PyFloat.emax (PyFloat.of_int microseconds) (PyFloat.of_int 1000000).

(** [int(duration.total_seconds() / 60)] when both times are set, else
    [None]. *)
Definition actual_duration (c : Consultation) : result (option Z) :=
  match actual_start_time c, actual_end_time c with
  | Some started, Some ended =>
      let duration := ended - started in
      let* minutes :=
        PyFloat.to_int
          (SFdiv PyFloat.prec PyFloat.emax (total_seconds duration) (PyFloat.of_int 60)) in
      Return (Some minutes)
  | _, _ => Return None
  end.

(** Assignment of the end time, which the caller makes when a consultation
    is completed. *)
Definition with_times (started ended : option Z) (c : Consultation) : Consultation :=
  MkConsultation (id c) (scheduled_date c) (scheduled_time c) (duration c) (status c)
    started ended (checked_in_at c) (checked_in_by c)
    (ready_for_consultation_at c) (ready_marked_by c) (consultation_fee c) (is_paid c)
    (payment_status c) (cancelled_by c) (cancellation_reason c) (cancelled_at c)
    (reschedule_requested c) (reschedule_requested_at c) (reschedule_requested_by c)
    (reschedule_reason c) (reschedule_approved c) (reschedule_approved_by c)
    (reschedule_approved_at c) (rescheduled_at c).

(** The minutes computed for a duration of [k] minutes are [k], and for one
    microsecond less they are [k - 1] (or 0 for no time at all). *)
Definition minute_boundaries (k : Z) : bool :=
  let minutes_of d :=
    PyFloat.to_int
      (SFdiv PyFloat.prec PyFloat.emax (total_seconds d) (PyFloat.of_int 60)) in
  match minutes_of (k * 60000000), minutes_of (k * 60000000 + 59999999) with
  | Return exact, Return late => (exact =? k) && (late =? k)
  | _, _ => false
  end.

End Durations.

(** * Checks of the runtime model against known values *)

Example int_plain : Py.int "007" = Return 7.
Proof. reflexivity. Qed.

Example int_signed_padded : Py.int " -12_5 " = Return (-125).
Proof. reflexivity. Qed.

Example int_rejects_letters : Py.int "ABC" = Raise ValueError.
Proof. reflexivity. Qed.

Example int_rejects_empty : Py.int EmptyString = Raise ValueError.
Proof. reflexivity. Qed.

Example format_pads : Py.format_0d 3 8 = "008" /\ Py.format_0d 3 1000 = "1000"
                      /\ Py.format_0d 3 (-4) = "-04" /\ Py.format_0d 6 0 = "000000".
Proof. repeat split; reflexivity. Qed.

Example split_examples :
  Py.split3 "abc###1" = ["abc"; "1"] /\ Py.split3 "abc" = ["abc"]
  /\ Py.split3 "a####b" = ["a"; "#b"] /\ Py.split3 "a###b###c" = ["a"; "b"; "c"]
  /\ Py.split3 EmptyString = [EmptyString]
  /\ Py.split3 "###" = [EmptyString; EmptyString].
Proof. repeat split; reflexivity. Qed.

(** 0.29 as a binary64 is 0x1.28f5c28f5c28fp-2. *)
Example float_0_29 :
  PyFloat.of_decimal2 29 = S754_finite false 0x128f5c28f5c28f (-54).
Proof. vm_compute. reflexivity. Qed.

(** The test vectors of FIPS 180-4 (one block, empty, two blocks). *)
Example sha256_abc :
  Hashlib.sha256_hexdigest (Py.encode "abc")
  = "ba7816bf8f01cfea414140de5dae2223b00361a396177a9cb410ff61f20015ad".
Proof. vm_compute. reflexivity. Qed.

Example sha256_empty :
  Hashlib.sha256_hexdigest []
  = "e3b0c44298fc1c149afbf4c8996fb92427ae41e4649b934ca495991b7852b855".
Proof. vm_compute. reflexivity. Qed.

Example sha256_two_blocks :
  Hashlib.sha256_hexdigest
    (Py.encode "abcdbcdecdefdefgefghfghighijhijkijkljklmklmnlmnomnopnopq")
  = "248d6a61d20638b8e5c026930c3e6039a33ce45964ff2167f6ecedd419db06c1".
Proof. vm_compute. reflexivity. Qed.

Example b64_vectors :
  Base64.b64encode (Py.encode "f") = "Zg=="
  /\ Base64.b64encode (Py.encode "fo") = "Zm8="
  /\ Base64.b64encode (Py.encode "foobar") = "Zm9vYmFy"
  /\ Base64.b64encode [251; 255; 190] = "+/++".
Proof. repeat split; reflexivity. Qed.

Example dumps_compact :
  Json.dumps (Json.Object [("merchantId", Json.Str "M1"); ("amount", Json.Int 10000);
                           ("paymentInstrument", Json.Object [("type", Json.Str "PAY_PAGE")])])
  = "{" +:+ Json.quote "merchantId" +:+ ":" +:+ Json.quote "M1" +:+ ","
        +:+ Json.quote "amount" +:+ ":10000,"
        +:+ Json.quote "paymentInstrument" +:+ ":{" +:+ Json.quote "type" +:+ ":"
        +:+ Json.quote "PAY_PAGE" +:+ "}}".
Proof. reflexivity. Qed.

(** UTF-8 of a code point above 127, and the escapes of [json.dumps]. *)
Example sha256_e_acute :
  Hashlib.sha256_hexdigest (Py.encode (String (ascii_of_nat 233) EmptyString))
  = "4a99557e4033c3539de2eb65472017cad5f9557f7a0625a09f1c3f6e2ba69c4c".
Proof. vm_compute. reflexivity. Qed.

Example dumps_escapes :
  Json.escape (String (ascii_of_nat 10) (String (ascii_of_nat 127)
                 (String (ascii_of_nat 233) "z")))
  = String "\" "n" +:+ String "\" "u007f" +:+ String "\" "u00e9" +:+ "z"
  /\ Json.dumps (Json.Array [Json.Int 1; Json.Null; Json.Bool true; Json.Int (-5)])
     = "[1,null,true,-5]".
Proof. split; vm_compute; reflexivity. Qed.

(** A signature computed with the standard library of Python for the
    sandbox salt key, the status endpoint and a two-member payload. *)
Example x_verify_known_vector :
  PhonePeService._generate_x_verify_header (PhonePeService.init ∅)
    (PhonePeService._encode_base64
       (Json.Object [("merchantId", Json.Str "PGTESTPAYUAT86");
                     ("merchantTransactionId", Json.Str "TXN42ABCDEF12")]))
    "/pg/v1/status"
  = "0dccd2542cd5367b0cf7bdcff13b70724b575d66c713c9a264d242177ac9a7cd###1".
Proof. vm_compute. reflexivity. Qed.

(** * Texts *)

Lemma app_cons (c : ascii) (a b : string) : String c a +:+ b = String c (a +:+ b).
Proof. reflexivity. Qed.

Lemma app_empty_l (b : string) : EmptyString +:+ b = b.
Proof. reflexivity. Qed.

Lemma length_app (a b : string) :
  String.length (a +:+ b) = (String.length a + String.length b)%nat.
Proof. induction a as [|c a IH]; [reflexivity|]. rewrite app_cons. simpl. now rewrite IH. Qed.

Lemma all_chars_app (p : ascii -> bool) (a b : string) :
  Py.all_chars p (a +:+ b) = Py.all_chars p a && Py.all_chars p b.
Proof.
  induction a as [|c a IH]; [reflexivity|].
  rewrite app_cons. simpl. rewrite IH. now rewrite andb_assoc.
Qed.

Lemma all_chars_weaken (p q : ascii -> bool) (s : string) :
  (forall c, p c = true -> q c = true) ->
  Py.all_chars p s = true -> Py.all_chars q s = true.
Proof.
  intros Hpq. induction s as [|c s IH]; [reflexivity|]. simpl.
  intros [Hc Hs]%andb_true_iff. rewrite (Hpq _ Hc). now apply IH.
Qed.

(** * The digest is a text of 64 lowercase hexadecimal digits *)

Lemma hex_digit_lower (n : Z) : 0 <= n < 16 -> Spec.lower_hex (Hashlib.hex_digit n) = true.
Proof.
  intros Hn. rewrite <- (Z2Nat.id n) by lia.
  assert (Hk : (Z.to_nat n < 16)%nat) by lia. revert Hk.
  generalize (Z.to_nat n) as k. intros k Hk.
  do 16 (destruct k as [|k]; [reflexivity|]). lia.
Qed.

Lemma nibble_range (w i : Z) : 0 <= Hashlib.nibble w i < 16.
Proof. unfold Hashlib.nibble. apply Z.mod_pos_bound. lia. Qed.

Lemma hex8_lower (w : Z) : Py.all_chars Spec.lower_hex (Hashlib.hex8 w) = true.
Proof.
  unfold Hashlib.hex8. simpl.
  rewrite !hex_digit_lower by apply nibble_range. reflexivity.
Qed.

Lemma hex8_length (w : Z) : String.length (Hashlib.hex8 w) = 8%nat.
Proof. reflexivity. Qed.

Lemma sha256_hexdigest_lower (msg : list Z) :
  Py.all_chars Spec.lower_hex (Hashlib.sha256_hexdigest msg) = true.
Proof.
  unfold Hashlib.sha256_hexdigest. cbv zeta.
  rewrite !all_chars_app, !hex8_lower. reflexivity.
Qed.

Lemma sha256_hexdigest_length (msg : list Z) :
  String.length (Hashlib.sha256_hexdigest msg) = 64%nat.
Proof.
  unfold Hashlib.sha256_hexdigest. cbv zeta.
  rewrite !length_app, !hex8_length. reflexivity.
Qed.

Lemma lower_hex_ascii (c : ascii) : Spec.lower_hex c = true -> (Py.ord c <? 128) = true.
Proof. unfold Spec.lower_hex. cbv zeta. lia. Qed.

Lemma lower_hex_not_hash (c : ascii) : Spec.lower_hex c = true -> Ascii.eqb c "#" = false.
Proof.
  intros H. destruct (Ascii.eqb_spec c "#") as [->|]; [|reflexivity].
  vm_compute in H. discriminate.
Qed.

Lemma sha256_hexdigest_isascii (msg : list Z) :
  Py.isascii (Hashlib.sha256_hexdigest msg) = true.
Proof.
  unfold Py.isascii.
  apply (all_chars_weaken Spec.lower_hex); [apply lower_hex_ascii|].
  apply sha256_hexdigest_lower.
Qed.

(** * [split] on the separator *)

Lemma split3_nonempty (s : string) : Py.split3 s <> [].
Proof.
  induction s as [|c r IH]; [discriminate|].
  simpl. destruct r as [|c1 [|c2 r']];
    try (destruct (Py.split3 _); discriminate).
  destruct (_ && _); [discriminate|].
  destruct (Py.split3 _); discriminate.
Qed.

Lemma split3_keep (c : ascii) (r : string) :
  Ascii.eqb c "#" = false -> Py.split3 (String c r) = Py.cons_first c (Py.split3 r).
Proof.
  intros Hc. destruct r as [|c1 [|c2 r']]; try reflexivity.
  change (Py.split3 (String c (String c1 (String c2 r'))))
    with (if Ascii.eqb c "#" && Ascii.eqb c1 "#" && Ascii.eqb c2 "#"
          then EmptyString :: Py.split3 r'
          else Py.cons_first c (Py.split3 (String c1 (String c2 r')))).
  now rewrite Hc.
Qed.

(** A header without the separator is one part. *)
Lemma split3_no_separator (s : string) :
  (forall a b, s <> a +:+ "###" +:+ b) -> Py.split3 s = [s].
Proof.
  induction s as [|c r IH]; intros Hno; [reflexivity|].
  assert (Hr : Py.split3 r = [r]).
  { apply IH. intros a b ->. apply (Hno (String c a) b). reflexivity. }
  destruct r as [|c1 [|c2 r']].
  - reflexivity.
  - simpl in *. reflexivity.
  - change (Py.split3 (String c (String c1 (String c2 r'))))
      with (if Ascii.eqb c "#" && Ascii.eqb c1 "#" && Ascii.eqb c2 "#"
            then EmptyString :: Py.split3 r'
            else Py.cons_first c (Py.split3 (String c1 (String c2 r')))).
    destruct (Ascii.eqb_spec c "#") as [->|]; cbn [andb];
      [destruct (Ascii.eqb_spec c1 "#") as [->|]; cbn [andb];
       [destruct (Ascii.eqb_spec c2 "#") as [->|]; cbn [andb]|]|];
      try (rewrite Hr; reflexivity).
    exfalso. apply (Hno EmptyString r'). reflexivity.
Qed.

(** A first part without ['#'] is cut off at the first separator. *)
Lemma split3_prefix (h r : string) :
  Py.all_chars (fun c => negb (Ascii.eqb c "#")) h = true ->
  Py.split3 (h +:+ "###" +:+ r) = h :: Py.split3 r.
Proof.
  induction h as [|c h IH]; intros Hh.
  - reflexivity.
  - simpl in Hh. apply andb_true_iff in Hh as [Hc Hh].
    apply negb_true_iff in Hc.
    rewrite app_cons, (split3_keep _ _ Hc), (IH Hh). reflexivity.
Qed.

(** * Payment gateway *)

(** C1 (defect of the code).  The claim asks for [round(amount * 100)]
    without loss: 0.29 must give 29 minor units.  [initiate_payment]
    computes [int(float(amount) * 100)]: the binary64 product of 0.29 and
    100 is 28.999999999999996 and [int] truncates it to 28.  The amount
    100.00 does give 10000. *)
Theorem amount_in_paise_truncates_float_product :
  PhonePeService.amount_in_paise (PhonePeService.Decimal2 29) = Return 28
  /\ Spec.exact_minor_units (PhonePeService.Decimal2 29) = Some 29
  /\ PyFloat.mul (PyFloat.of_decimal2 29) (PyFloat.of_int 100)
     = S754_finite false 8162774324609023 (-48)
  /\ PhonePeService.amount_in_paise (PhonePeService.Decimal2 10000) = Return 10000.
Proof. repeat split; vm_compute; reflexivity. Qed.

(** Other two-place amounts that lose one minor unit: 1.15, 4.35, 19.99
    and 299.99. *)
Example amount_in_paise_more_losses :
  PhonePeService.amount_in_paise (PhonePeService.Decimal2 115) = Return 114
  /\ PhonePeService.amount_in_paise (PhonePeService.Decimal2 435) = Return 434
  /\ PhonePeService.amount_in_paise (PhonePeService.Decimal2 1999) = Return 1998
  /\ PhonePeService.amount_in_paise (PhonePeService.Decimal2 29999) = Return 29999.
Proof. repeat split; vm_compute; reflexivity. Qed.

(** C4.  For every payload, endpoint, salt key and salt index, the
    X-VERIFY header that [_generate_x_verify_header] builds from the text of
    [_encode_base64] is the signature of the specification: the SHA-256
    digest, as 64 lowercase hexadecimal digits, of base64(compact JSON)
    followed by the endpoint and the salt key, then ["###"] and the salt
    index.  It depends on the service through its salt key and salt index
    only, so equal inputs give equal headers. *)
Theorem x_verify_header_is_canonical_signature
    (self : PhonePeService.t) (payload : Json.value) (endpoint : string) :
  let header :=
    PhonePeService._generate_x_verify_header self
      (PhonePeService._encode_base64 payload) endpoint in
  header = Spec.canonical_signature payload endpoint
             (PhonePeService.salt_key self) (PhonePeService.salt_index self)
  /\ (exists hash,
        header = hash +:+ "###" +:+ PhonePeService.salt_index self
        /\ String.length hash = 64%nat
        /\ Py.all_chars Spec.lower_hex hash = true
        /\ hash = Hashlib.sha256_hexdigest
                    (Py.encode (Base64.b64encode (Py.encode (Json.dumps payload))
                                +:+ endpoint +:+ PhonePeService.salt_key self)))
  /\ (forall other : PhonePeService.t,
        PhonePeService.salt_key other = PhonePeService.salt_key self ->
        PhonePeService.salt_index other = PhonePeService.salt_index self ->
        PhonePeService._generate_x_verify_header other
          (PhonePeService._encode_base64 payload) endpoint = header).
Proof.
  cbv zeta. split; [reflexivity|]. split.
  - eexists. split; [reflexivity|].
    split; [apply sha256_hexdigest_length|].
    split; [apply sha256_hexdigest_lower|reflexivity].
  - intros other Hkey Hindex.
    unfold PhonePeService._generate_x_verify_header. now rewrite Hkey, Hindex.
Qed.

(** The request of [initiate_payment] carries that signature for the
    endpoint [/pg/v1/pay]. *)
Lemma initiate_payment_request_signed
    (self : PhonePeService.t) (payment_id : string) (a : PhonePeService.amount)
    (customer_info : list (string * Json.value)) (additional_info : Json.value)
    (uuid4_hex : string) (req : PhonePeService.pay_request) :
  PhonePeService.initiate_payment_request self payment_id a customer_info
    additional_info uuid4_hex = Return req ->
  PhonePeService.headers req !! 1%nat
  = Some ("X-VERIFY",
          Spec.canonical_signature (PhonePeService.payload req) "/pg/v1/pay"
            (PhonePeService.salt_key self) (PhonePeService.salt_index self)).
Proof.
  unfold PhonePeService.initiate_payment_request.
  destruct (PhonePeService.amount_in_paise a) as [paise|e]; [|discriminate].
  cbn [bind]. intros [= <-]. reflexivity.
Qed.

Lemma compare_digest_true (a b : string) :
  Hmac.compare_digest a b = Return true -> a = b.
Proof.
  unfold Hmac.compare_digest. destruct (_ && _); [|discriminate].
  intros [= H]. now apply String.eqb_eq.
Qed.

(** C5.  [verify_webhook_signature] is false when the header does not
    split on ["###"] into exactly two parts, in particular when it has no
    separator; it is true exactly when the header has two parts and the
    first is the hexadecimal SHA-256 digest of the payload followed by the
    salt key; so a header made for another payload, of another digest, is
    rejected whatever follows its separator. *)
Theorem verify_webhook_signature_correct
    (self : PhonePeService.t) (payload header : string) :
  let digest_of p :=
    Hashlib.sha256_hexdigest (Py.encode (p +:+ PhonePeService.salt_key self)) in
  (length (Py.split3 header) <> 2%nat ->
   PhonePeService.verify_webhook_signature self payload header = false)
  /\ ((forall a b, header <> a +:+ "###" +:+ b) ->
      PhonePeService.verify_webhook_signature self payload header = false)
  /\ (PhonePeService.verify_webhook_signature self payload header = true <->
      exists received index,
        Py.split3 header = [received; index] /\ received = digest_of payload)
  /\ (forall original index,
        digest_of original <> digest_of payload ->
        PhonePeService.verify_webhook_signature self payload
          (digest_of original +:+ "###" +:+ index) = false).
Proof.
  cbv zeta.
  assert (Hlen : forall h, length (Py.split3 h) <> 2%nat ->
                 PhonePeService.verify_webhook_signature self payload h = false).
  { intros h Hne. unfold PhonePeService.verify_webhook_signature.
    destruct (Nat.eqb_spec (length (Py.split3 h)) 2); [contradiction|reflexivity]. }
  assert (Htwo : forall h received index, Py.split3 h = [received; index] ->
            PhonePeService.verify_webhook_signature self payload h
            = except_Exception
                (Hmac.compare_digest
                   (Hashlib.sha256_hexdigest
                      (Py.encode (payload +:+ PhonePeService.salt_key self))) received)
                false).
  { intros h received index Hparts. unfold PhonePeService.verify_webhook_signature.
    rewrite Hparts. reflexivity. }
  split; [apply Hlen|]. split; [|split].
  - intros Hno. apply Hlen. now rewrite (split3_no_separator _ Hno).
  - split.
    + intros Hv.
      destruct (Py.split3 header) as [|received [|index [|extra rest]]] eqn:Hparts;
        try (rewrite Hlen in Hv; [discriminate|rewrite Hparts; simpl; lia]).
      exists received, index. split; [reflexivity|].
      rewrite (Htwo _ _ _ Hparts) in Hv.
      destruct (Hmac.compare_digest _ received) as [[|]|e] eqn:Hcmp;
        try discriminate.
      symmetry. now apply compare_digest_true.
    + intros (received & index & Hparts & ->).
      rewrite (Htwo _ _ _ Hparts). unfold Hmac.compare_digest.
      rewrite sha256_hexdigest_isascii, String.eqb_refl. reflexivity.
  - intros original index Hdiff.
    set (h := Hashlib.sha256_hexdigest
                (Py.encode (original +:+ PhonePeService.salt_key self))) in *.
    assert (Hsplit : Py.split3 (h +:+ "###" +:+ index) = h :: Py.split3 index).
    { apply split3_prefix.
      apply (all_chars_weaken Spec.lower_hex);
        [intros c Hc; now rewrite (lower_hex_not_hash c Hc)|].
      apply sha256_hexdigest_lower. }
    destruct (Py.split3 index) as [|i [|j rest]] eqn:Hindex.
    + apply Hlen. rewrite Hsplit. simpl. lia.
    + rewrite (Htwo _ _ _ Hsplit). unfold Hmac.compare_digest.
      assert (Hascii : Py.isascii h = true) by apply sha256_hexdigest_isascii.
      rewrite sha256_hexdigest_isascii, Hascii. cbn [andb except_Exception].
      destruct (String.eqb_spec
                  (Hashlib.sha256_hexdigest
                     (Py.encode (payload +:+ PhonePeService.salt_key self))) h)
        as [Heq|]; [|reflexivity].
      exfalso. apply Hdiff. now rewrite Heq.
    + apply Hlen. rewrite Hsplit. simpl. lia.
Qed.

(** * Identifiers *)

Import Consultations.

Example first_consultation_id :
  id (self_after (save (new_consultation 20000 0 50000) (empty_world 0 0))) = "CON001".
Proof. vm_compute. reflexivity. Qed.

Example consultation_id_examples :
  let row (i : string) := set_id i (new_consultation 20000 0 50000) in
  let table (ids : list string) : gmap string Consultation :=
    list_to_map (map (fun i => (i, row i)) ids) in
  new_number (table ["CON007"]) = Return 8
  /\ new_number (table ["CON005"; "XYZ"]) = Return 6
  /\ new_number (table ["CONabc"]) = Return 1
  /\ new_number (table ["XYZ"]) = Return 1
  /\ new_number (table ["CON999"; "CON1000"]) = Return 1000.
Proof. repeat split; vm_compute; reflexivity. Qed.

Lemma int_raises_ValueError (s : string) (e : Exception) :
  Py.int s = Raise e -> e = ValueError.
Proof.
  unfold Py.int.
  match goal with |- context [let '(_, _) := ?x in _] => destruct x as [negative ds] end.
  destruct (Py.digits 0 false ds); [discriminate|]. now intros [= <-].
Qed.

Lemma number_after_returns (s : string) :
  exists n,
    except_ValueError_IndexError
      (let* last_number := Py.int s in Return (last_number + 1)) (Return 1) = Return n.
Proof.
  destruct (Py.int s) as [k|e] eqn:Hint; cbn [bind].
  - eexists. reflexivity.
  - rewrite (int_raises_ValueError _ _ Hint). eexists. reflexivity.
Qed.

(** Numbering of consultations ends with a number for every table. *)
Lemma new_number_returns (rows : gmap string Consultation) :
  exists n, new_number rows = Return n.
Proof.
  unfold new_number.
  destruct (order_by_id_last rows) as [last_consultation|]; [|eexists; reflexivity].
  destruct (Py.startswith (id last_consultation) "CON").
  - apply number_after_returns.
  - destruct (order_by_id_last (filter_id_startswith "CON" rows)) as [last_con|].
    + apply number_after_returns.
    + eexists. reflexivity.
Qed.

Lemma set_id_same (c : Consultation) : set_id (id c) c = c.
Proof. now destruct c. Qed.

(** [Consultation.save] never raises: it writes the instance under its key,
    which is a new one when the instance had none. *)
Lemma save_spec (c : Consultation) (w : World) :
  exists key,
    save c w = Outcome (Return tt) (set_id key c)
                 (set_consultations (<[key := set_id key c]> (consultations w)) w)
    /\ (id c <> EmptyString -> key = id c).
Proof.
  unfold save, mbind, attr, query, lift, assign, ret, super_save. cbn.
  destruct (String.eqb_spec (id c) EmptyString) as [Hid|Hid].
  - destruct (new_number_returns (consultations w)) as [n ->]. cbn.
    eexists. split; [reflexivity|]. intros Hne. contradiction.
  - cbn. exists (id c). rewrite set_id_same. split; [reflexivity|]. reflexivity.
Qed.

(** * Transitions *)

(** Runs a method symbolically up to its call of [save], then uses
    [save_spec] for that call. *)
Ltac step_method :=
  unfold request_reschedule, approve_reschedule, apply_reschedule, check_in_patient,
    mark_ready_for_consultation, start_consultation, is_eligible_for_reschedule,
    is_checked_in, scheduled_datetime, create_reschedule,
    mbind, attr, assign, query, lift, raise, ret, timezone_now;
  cbn -[save].

(** Decides [status in [...]] and [status == ...] for a known status. *)
Ltac decide_status :=
  repeat match goal with
    | |- context [status_in ?s ?l] =>
        is_constructor s;
        let b := eval vm_compute in (status_in s l) in
        lazymatch b with
        | true => change (status_in s l) with true
        | false => change (status_in s l) with false
        end
    | |- context [bool_decide (?s = ?s')] =>
        is_constructor s; is_constructor s';
        let b := eval vm_compute in (bool_decide (s = s')) in
        lazymatch b with
        | true => change (bool_decide (s = s')) with true
        | false => change (bool_decide (s = s')) with false
        end
    end;
  cbn -[save].

Ltac use_save :=
  match goal with
  | |- context [save ?c ?w] =>
      let key := fresh "key" in
      let Hsave := fresh "Hsave" in
      let Hkey := fresh "Hkey" in
      destruct (save_spec c w) as (key & Hsave & Hkey);
      rewrite Hsave; cbn
  end.

(** C8.  [check_in_patient] on a consultation whose status is not
    [scheduled] returns false and leaves the instance and the world as they
    were, so the status and every timestamp are unchanged.  On a scheduled
    consultation it returns true, the status becomes [patient_checked_in],
    the check-in time is the current time, the acting user is recorded and
    the row is saved. *)
Theorem check_in_patient_guard (c : Consultation) (w : World) (actor : User) :
  (status c <> scheduled ->
   check_in_patient actor c w = Outcome (Return false) c w)
  /\ (status c = scheduled ->
      let o := check_in_patient actor c w in
      returned o = Return true
      /\ status (self_after o) = patient_checked_in
      /\ checked_in_at (self_after o) = Some (clock w (reads w))
      /\ checked_in_by (self_after o) = Some actor
      /\ consultations (world_after o) !! id (self_after o) = Some (self_after o)).
Proof.
  split.
  - intros Hst. step_method. rewrite bool_decide_eq_false_2 by assumption. reflexivity.
  - intros Hst. step_method. rewrite Hst. decide_status. use_save.
    repeat split. apply lookup_insert_eq.
Qed.

Example check_in_patient_scheduled :
  let o := check_in_patient 7%nat (new_consultation 20000 0 50000) (empty_world 1234 0) in
  returned o = Return true
  /\ id (self_after o) = "CON001"
  /\ status (self_after o) = patient_checked_in
  /\ checked_in_at (self_after o) = Some 1234
  /\ checked_in_by (self_after o) = Some 7%nat.
Proof. vm_compute. repeat split. Qed.

(** C10.  On a scheduled consultation [mark_ready_for_consultation]
    succeeds without any check-in and leaves [checked_in_at] and
    [checked_in_by] as they were; afterwards [is_checked_in] is true, so for
    a consultation that was never checked in it is true while both columns
    are still empty. *)
Theorem mark_ready_skips_check_in (c : Consultation) (w : World) (actor : User) :
  status c = scheduled ->
  let o := mark_ready_for_consultation actor c w in
  returned o = Return true
  /\ status (self_after o) = ready_for_consultation
  /\ checked_in_at (self_after o) = checked_in_at c
  /\ checked_in_by (self_after o) = checked_in_by c
  /\ returned (is_checked_in (self_after o) (world_after o)) = Return true
  /\ (checked_in_at c = None -> checked_in_by c = None ->
      returned (is_checked_in (self_after o) (world_after o)) = Return true
      /\ checked_in_at (self_after o) = None
      /\ checked_in_by (self_after o) = None).
Proof.
  intros Hst. step_method. rewrite Hst. decide_status. use_save.
  repeat split; assumption.
Qed.

Lemma mark_ready_skips_check_in_witness :
  let c := new_consultation 20000 0 50000 in
  let o := mark_ready_for_consultation 7%nat c (empty_world 1234 0) in
  status c = scheduled
  /\ returned o = Return true
  /\ returned (is_checked_in (self_after o) (world_after o)) = Return true
  /\ checked_in_at (self_after o) = None
  /\ checked_in_by (self_after o) = None.
Proof.
  cbv zeta. split; [reflexivity|].
  pose proof (mark_ready_skips_check_in (new_consultation 20000 0 50000)
                (empty_world 1234 0) 7%nat eq_refl) as H.
  cbv zeta in H. destruct H as (Hret & _ & _ & _ & _ & Hnone).
  destruct (Hnone eq_refl eq_refl) as (Hin & Hat & Hby).
  repeat split; assumption.
Defined.

Lemma status_in_completed_cancelled (s : Status) :
  status_in s [completed; cancelled] = false <-> s <> completed /\ s <> cancelled.
Proof. destruct s; vm_compute; split; intuition congruence. Qed.

(** The outcome of the property in closed form: the clock is read only
    when the status passes. *)
Lemma is_eligible_for_reschedule_outcome (c : Consultation) (w : World) :
  is_eligible_for_reschedule c w
  = if status_in (status c) [completed; cancelled]
    then Outcome (Return false) c w
    else Outcome
           (Return (make_aware w (combine (scheduled_date c) (scheduled_time c))
                    <? clock w (reads w) - timedelta_hours 1))
           c (tick w).
Proof.
  unfold is_eligible_for_reschedule, scheduled_datetime, mbind, attr, ret, timezone_now.
  destruct (status_in (status c) [completed; cancelled]); reflexivity.
Qed.

(** C7.  [is_eligible_for_reschedule] always ends with a truth value and
    changes neither the instance nor a table; it is true exactly when the
    status is neither completed nor cancelled and the scheduled time is
    earlier than the current time minus one hour.  Scheduled 30 minutes ago
    it is false; scheduled 2 hours ago, with such a status, it is true. *)
Theorem is_eligible_for_reschedule_iff (c : Consultation) (w : World) :
  let now := clock w (reads w) in
  let dt := make_aware w (combine (scheduled_date c) (scheduled_time c)) in
  let o := is_eligible_for_reschedule c w in
  returned (scheduled_datetime c w) = Return dt
  /\ (exists b, returned o = Return b)
  /\ self_after o = c
  /\ same_tables w (world_after o)
  /\ (returned o = Return true <->
      status c <> completed /\ status c <> cancelled /\ dt < now - timedelta_hours 1)
  /\ (dt = now - timedelta_minutes 30 -> returned o = Return false)
  /\ (dt = now - timedelta_hours 2 -> status c <> completed -> status c <> cancelled ->
      returned o = Return true).
Proof.
  cbv zeta. split; [reflexivity|].
  rewrite is_eligible_for_reschedule_outcome.
  set (dt := make_aware w (combine (scheduled_date c) (scheduled_time c))).
  set (now := clock w (reads w)).
  pose proof (status_in_completed_cancelled (status c)) as Hstatus.
  unfold timedelta_hours, timedelta_minutes.
  destruct (status_in (status c) [completed; cancelled]);
    cbn [returned self_after world_after].
  - assert (Hno : ~ (status c <> completed /\ status c <> cancelled)).
    { intros H. apply Hstatus in H. discriminate. }
    split; [eexists; reflexivity|]. split; [reflexivity|].
    split; [repeat split|].
    split; [split; [discriminate|intros (H1 & H2 & _); tauto]|].
    split; [reflexivity|]. intros _ H1 H2. tauto.
  - destruct (proj1 Hstatus eq_refl) as [Hc Hx].
    split; [eexists; reflexivity|]. split; [reflexivity|].
    split; [repeat split|].
    split.
    + split.
      * intros [= H]. apply Z.ltb_lt in H. repeat split; assumption.
      * intros (_ & _ & H). f_equal. apply Z.ltb_lt. exact H.
    + split.
      * intros H. f_equal. apply Z.ltb_ge. lia.
      * intros H _ _. f_equal. apply Z.ltb_lt. lia.
Qed.

(** * Reschedule workflow *)

(** C2.  The three steps cannot be collapsed.  [approve_reschedule] without
    a request, [apply_reschedule] without an approval and
    [request_reschedule] on a consultation that is not eligible each raise
    their own [ValidationError]; the instance is left as it was and no table
    is written (the first two do not even read the clock). *)
Theorem reschedule_gate_failures_change_nothing (c : Consultation) (w : World) :
  (forall approver,
      reschedule_requested c = false ->
      approve_reschedule approver c w
      = Outcome (Raise (ValidationError "No reschedule request to approve")) c w)
  /\ (forall date time why,
      reschedule_approved c = false ->
      apply_reschedule date time why c w
      = Outcome (Raise (ValidationError "Reschedule must be approved before applying"))
          c w)
  /\ (forall requester why,
      returned (is_eligible_for_reschedule c w) = Return false ->
      let o := request_reschedule requester why c w in
      returned o
      = Raise (ValidationError "This consultation is not eligible for reschedule")
      /\ self_after o = c
      /\ same_tables w (world_after o)).
Proof.
  split; [|split].
  - intros approver Hreq. step_method. rewrite Hreq. reflexivity.
  - intros date time why Happ. step_method. rewrite Happ. reflexivity.
  - intros requester why. step_method.
    destruct (status_in (status c) [completed; cancelled]); cbn -[save].
    + intros _. repeat split.
    + intros [= ->]. cbn. repeat split.
Qed.



(** * Cancellation *)

(** C9, the claim as stated fails: the model has no operation that cancels.
    From a scheduled consultation, a non-terminal status, no operation of
    [Consultation] leads to the status [cancelled]. *)
Lemma no_operation_cancels_a_scheduled_consultation :
  non_terminal (status (new_consultation 20000 0 50000)) = true
  /\ ~ exists op : Operation,
         status (self_after (perform op (new_consultation 20000 0 50000)
                               (empty_world 0 0))) = cancelled.
Proof.
  split; [reflexivity|].
  intros [op H]. destruct op; vm_compute in H; discriminate.
Qed.

(** C9, amended.  The model declares the cancellation columns but none of
    its operations is a cancellation: every operation leaves [cancelled_by],
    [cancellation_reason] and [cancelled_at] as they were, and none moves a
    consultation that is not cancelled to the status [cancelled]. *)
Theorem no_operation_writes_cancellation (op : Operation) (c : Consultation) (w : World) :
  let c' := self_after (perform op c w) in
  cancelled_by c' = cancelled_by c
  /\ cancellation_reason c' = cancellation_reason c
  /\ cancelled_at c' = cancelled_at c
  /\ (status c <> cancelled -> status c' <> cancelled).
Proof.
  cbv zeta. destruct op; unfold perform; step_method;
    try (destruct (status c) eqn:Hst; decide_status);
    repeat match goal with
      | |- context [if ?b then _ else _] => destruct b eqn:?; cbn -[save]
      end;
    try use_save; repeat split; try congruence.
Qed.

(** * Numbering of consultations and receipts *)

(** A new receipt is numbered after the last one when that number parses. *)
Example receipt_numbers :
  let receipt (number : string) := MkReceipt None "CON001" number 50000 "cash" "paid" 1%nat in
  let fresh := receipt EmptyString in
  receipt_number (self_after (receipt_save fresh (empty_world 0 0))) = "RCP000001"
  /\ receipt_number
       (self_after (receipt_save fresh
                      (set_receipts [receipt "RCP000007"] (empty_world 0 0))))
     = "RCP000008".
Proof. vm_compute. repeat split. Qed.

(** Numbering of receipts raises exactly when the number of the last
    receipt, after its first three characters, is not the text of an
    integer. *)
Lemma receipt_new_number_raises (rows : list ConsultationReceipt) :
  is_raise (receipt_new_number rows) = true <->
  exists last_receipt,
    last rows = Some last_receipt
    /\ Py.int (Py.slice_from 3 (receipt_number last_receipt)) = Raise ValueError.
Proof.
  unfold receipt_new_number. destruct (last rows) as [last_receipt|].
  - destruct (Py.int _) as [n|e] eqn:Hint; cbn [bind is_raise].
    + split; [discriminate|]. intros (r & [= <-] & Hr). congruence.
    + split; [|reflexivity]. intros _. exists last_receipt.
      split; [reflexivity|]. now rewrite (int_raises_ValueError _ _ Hint) in Hint.
  - cbn [is_raise]. split; [discriminate|]. intros (r & Hr & _). discriminate.
Qed.

(** C6 (defect of the code).  The claim holds for consultations:
    [Consultation.save] never raises, a foreign or corrupted last key makes
    it scan the keys with the prefix or restart at 1, and the first key is
    CON001.  It fails for receipts: [ConsultationReceipt.save] has neither
    the prefix test nor the handler, so after a receipt numbered
    INV-2024-0001 the next save raises [ValueError] and stores nothing. *)
Theorem receipt_save_raises_on_foreign_number :
  let receipt (key : option nat) (number : string) :=
    MkReceipt key "CON001" number 50000 "cash" "paid" 1%nat in
  let w := set_receipts [receipt (Some 0%nat) "INV-2024-0001"] (empty_world 0 0) in
  let o := receipt_save (receipt None EmptyString) w in
  let row (key : string) := set_id key (new_consultation 20000 0 50000) in
  let saved_after (key : string) :=
    save (new_consultation 20001 0 50000)
      (set_consultations {[ key := row key ]} (empty_world 0 0)) in
  returned o = Raise ValueError
  /\ self_after o = receipt None EmptyString
  /\ world_after o = w
  /\ (returned (saved_after "INV-2024-0001") = Return tt
      /\ id (self_after (saved_after "INV-2024-0001")) = "CON001")
  /\ (returned (saved_after "CON-2024-0001") = Return tt
      /\ id (self_after (saved_after "CON-2024-0001")) = "CON001")
  /\ receipt_number (self_after (receipt_save (receipt None EmptyString) (empty_world 0 0)))
     = "RCP000001".
Proof. vm_compute. repeat split. Qed.

(** The scan of the keys with the prefix takes the last key in the order of
    texts, which is not the greatest number once a number has four digits:
    with CON999 and CON1000 stored, the next key is CON1000 again and the
    save overwrites that row. *)
Example consultation_key_reused :
  let row (key : string) := set_id key (new_consultation 20000 0 50000) in
  let w := set_consultations
             (<["CON999" := row "CON999"]> {[ "CON1000" := row "CON1000" ]})
             (empty_world 0 0) in
  let o := save (new_consultation 20001 0 50000) w in
  id (self_after o) = "CON1000"
  /\ scheduled_date <$> (consultations w !! "CON1000") = Some 20000
  /\ scheduled_date <$> (consultations (world_after o) !! "CON1000") = Some 20001.
Proof. vm_compute. repeat split. Qed.

(** Concrete runs of the three refusals of the reschedule workflow. *)
Example reschedule_refusals :
  let c := new_consultation 20000 0 50000 in
  let late := 20000 * microseconds_per_day + timedelta_minutes 30 in
  returned (approve_reschedule 9%nat c (empty_world late 0))
  = Raise (ValidationError "No reschedule request to approve")
  /\ returned (apply_reschedule 20001 0 "moved" c (empty_world late 0))
     = Raise (ValidationError "Reschedule must be approved before applying")
  /\ returned (request_reschedule 3%nat "late" c (empty_world late 0))
     = Raise (ValidationError "This consultation is not eligible for reschedule")
  /\ returned (is_eligible_for_reschedule c
                 (empty_world (20000 * microseconds_per_day + timedelta_hours 2) 0))
     = Return true.
Proof. vm_compute. repeat split. Qed.

(** * The theorems at concrete inputs *)

Lemma check_in_patient_guard_witness :
  let c := new_consultation 20000 0 50000 in
  let done := set_status completed c in
  let w := empty_world 1234 0 in
  (status done <> scheduled /\ check_in_patient 7%nat done w = Outcome (Return false) done w)
  /\ (status c = scheduled
      /\ returned (check_in_patient 7%nat c w) = Return true
      /\ status (self_after (check_in_patient 7%nat c w)) = patient_checked_in
      /\ checked_in_at (self_after (check_in_patient 7%nat c w)) = Some 1234).
Proof.
  cbv zeta. split.
  - assert (Hne : status (set_status completed (new_consultation 20000 0 50000))
                  <> scheduled) by discriminate.
    split; [exact Hne|].
    exact (proj1 (check_in_patient_guard _ (empty_world 1234 0) 7%nat) Hne).
  - split; [reflexivity|].
    pose proof (proj2 (check_in_patient_guard (new_consultation 20000 0 50000)
                         (empty_world 1234 0) 7%nat) eq_refl) as H.
    cbv zeta in H. destruct H as (Hret & Hst & Hat & _).
    repeat split; assumption.
Defined.

Lemma is_eligible_for_reschedule_iff_witness :
  let c := new_consultation 20000 0 50000 in
  let due := 20000 * microseconds_per_day in
  returned (is_eligible_for_reschedule c (empty_world (due + timedelta_minutes 30) 0))
  = Return false
  /\ returned (is_eligible_for_reschedule c (empty_world (due + timedelta_hours 2) 0))
     = Return true.
Proof.
  cbv zeta. split.
  - apply (is_eligible_for_reschedule_iff (new_consultation 20000 0 50000)
             (empty_world (20000 * microseconds_per_day + timedelta_minutes 30) 0)).
    vm_compute. reflexivity.
  - apply (is_eligible_for_reschedule_iff (new_consultation 20000 0 50000)
             (empty_world (20000 * microseconds_per_day + timedelta_hours 2) 0)).
    + vm_compute. reflexivity.
    + discriminate.
    + discriminate.
Defined.

Lemma reschedule_gate_failures_change_nothing_witness :
  let c := new_consultation 20000 0 50000 in
  let w := empty_world (20000 * microseconds_per_day + timedelta_minutes 30) 0 in
  approve_reschedule 9%nat c w
  = Outcome (Raise (ValidationError "No reschedule request to approve")) c w
  /\ apply_reschedule 20001 0 "moved" c w
     = Outcome (Raise (ValidationError "Reschedule must be approved before applying")) c w
  /\ returned (request_reschedule 3%nat "late" c w)
     = Raise (ValidationError "This consultation is not eligible for reschedule")
  /\ self_after (request_reschedule 3%nat "late" c w) = c.
Proof.
  cbv zeta.
  pose proof (reschedule_gate_failures_change_nothing
                (new_consultation 20000 0 50000)
                (empty_world (20000 * microseconds_per_day + timedelta_minutes 30) 0))
    as (Happrove & Happly & Hrequest).
  split; [apply Happrove; reflexivity|].
  split; [apply Happly; reflexivity|].
  assert (Hnot : returned (is_eligible_for_reschedule (new_consultation 20000 0 50000)
                   (empty_world (20000 * microseconds_per_day + timedelta_minutes 30) 0))
                 = Return false) by (vm_compute; reflexivity).
  destruct (Hrequest 3%nat "late" Hnot) as (Hret & Hself & _).
  split; assumption.
Defined.

Lemma verify_webhook_signature_correct_witness :
  let self := PhonePeService.init ∅ in
  let digest := "df2493af9f5ba35a88f70dcec5321818b8d396aafe5a7a57ea2697cce7728881" in
  PhonePeService.verify_webhook_signature self "hello" digest = false
  /\ PhonePeService.verify_webhook_signature self "hello" (digest +:+ "###1") = true
  /\ PhonePeService.verify_webhook_signature self "hullo" (digest +:+ "###1") = false.
Proof.
  cbv zeta. split; [|split].
  - apply (proj1 (verify_webhook_signature_correct (PhonePeService.init ∅) "hello" _)).
    vm_compute. intros H. discriminate H.
  - apply (proj1 (proj2 (proj2 (verify_webhook_signature_correct
                                  (PhonePeService.init ∅) "hello" _)))).
    eexists _, "1". split; vm_compute; reflexivity.
  - pose proof (verify_webhook_signature_correct (PhonePeService.init ∅) "hullo"
                  EmptyString) as (_ & _ & _ & Htamper).
    cbv zeta in Htamper. specialize (Htamper "hello" "1").
    assert (Hdigest :
      Hashlib.sha256_hexdigest
        (Py.encode ("hello" +:+ PhonePeService.salt_key (PhonePeService.init ∅)))
      = "df2493af9f5ba35a88f70dcec5321818b8d396aafe5a7a57ea2697cce7728881")
      by (vm_compute; reflexivity).
    rewrite Hdigest in Htamper. apply Htamper.
    vm_compute. intros H. discriminate H.
Defined.

(** * Beyond the claims: frame conditions and invariants of the operations *)

Import Lifecycle.

(** Tries every way an operation can go: the status, then every test the
    method makes, then its save. *)
Ltac run_operation c :=
  unfold perform; step_method;
  try (destruct (status c) eqn:?; decide_status);
  repeat match goal with
    | |- context [if ?b then _ else _] => destruct b eqn:?; cbn -[save]
    end;
  try use_save.

Ltac bool_facts :=
  repeat match goal with
    | H : negb _ = false |- _ => apply negb_false_iff in H
    | H : negb _ = true |- _ => apply negb_true_iff in H
    end.

(** Every operation keeps the reschedule columns consistent. *)
Lemma perform_keeps_consistency (op : Operation) (c : Consultation) (w : World) :
  workflow_consistent c -> workflow_consistent (self_after (perform op c w)).
Proof.
  unfold workflow_consistent. intros [Happ Hreq].
  destruct op; run_operation c; bool_facts; cbn;
    (split; [intros ?|intros ?; repeat split]);
    try congruence; eauto;
    try (destruct Hreq as (? & ? & ?); [congruence|]; eauto; congruence);
    try (destruct Hreq as (? & ? & ?); [tauto|]; eauto; congruence).
Qed.

Lemma after_keeps_consistency (ops : list Operation) (c : Consultation) (w : World) :
  workflow_consistent c -> workflow_consistent (after ops c w).1.
Proof.
  revert c w. induction ops as [|op ops IH]; intros c w Hc; [exact Hc|].
  cbn [after]. apply IH. now apply perform_keeps_consistency.
Qed.

(** X1.  Whatever operations are called on a consultation created by the
    model, its reschedule columns stay consistent: an approval never stands
    without a request, and a pending request always has the status
    [overdue], its time and its requester. *)
Theorem reschedule_columns_stay_consistent
    (ops : list Operation) (date time fee : Z) (w : World) :
  workflow_consistent (after ops (new_consultation date time fee) w).1.
Proof.
  apply after_keeps_consistency. split; cbn; discriminate.
Qed.

(** The history after a successful [apply_reschedule]. *)
Lemma applied_history
    (c : Consultation) (w : World) (date time : Z) (why : string) :
  reschedule_approved c = true ->
  exists key,
    reschedule_history (world_after (apply_reschedule date time why c w))
    = reschedule_history w
      ++ [MkReschedule key (scheduled_date c) (scheduled_time c) date time why
            (reschedule_requested_by c)].
Proof.
  intros Happ. step_method. rewrite Happ. cbn -[save]. use_save.
  eexists. reflexivity.
Qed.

(** X2.  In a consistent state an approved reschedule, once applied, leaves
    a history row that names a requester: the requester column of the row
    is never empty. *)
Theorem applied_reschedule_names_its_requester
    (c : Consultation) (w : World) (date time : Z) (why : string) :
  workflow_consistent c ->
  reschedule_approved c = true ->
  exists requester row,
    last (reschedule_history (world_after (apply_reschedule date time why c w)))
    = Some row
    /\ requested_by row = Some requester
    /\ reschedule_requested_by c = Some requester.
Proof.
  intros [Happ Hreq] Happroved.
  destruct (Hreq (Happ Happroved)) as (_ & _ & [requester Hby]).
  destruct (applied_history c w date time why Happroved)
    as [key Hhist].
  exists requester. eexists. rewrite Hhist, last_snoc. split; [reflexivity|].
  split; assumption.
Qed.

Lemma applied_reschedule_names_its_requester_witness :
  let c0 := new_consultation 20000 0 50000 in
  let w0 := empty_world (20000 * microseconds_per_day + timedelta_hours 2) 0 in
  let s := after [RequestReschedule 3%nat "late"; ApproveReschedule 9%nat] c0 w0 in
  reschedule_approved s.1 = true
  /\ exists requester row,
       last (reschedule_history (world_after (apply_reschedule 20001 0 "moved" s.1 s.2)))
       = Some row
       /\ requested_by row = Some requester
       /\ reschedule_requested_by s.1 = Some requester.
Proof.
  cbv zeta.
  set (s := after _ _ _).
  assert (Happroved : reschedule_approved s.1 = true) by (vm_compute; reflexivity).
  split; [exact Happroved|].
  apply applied_reschedule_names_its_requester; [|exact Happroved].
  apply after_keeps_consistency. split; cbn; discriminate.
Defined.

(** One operation on a consultation whose reschedule was requested or
    applied. *)
Lemma perform_in_reschedule (op : Operation) (c : Consultation) (w : World) :
  in_reschedule (status c) ->
  let c' := self_after (perform op c w) in
  in_reschedule (status c')
  /\ checked_in_at c' = checked_in_at c
  /\ checked_in_by c' = checked_in_by c
  /\ ready_for_consultation_at c' = ready_for_consultation_at c
  /\ ready_marked_by c' = ready_marked_by c
  /\ actual_start_time c' = actual_start_time c.
Proof.
  unfold in_reschedule. cbv zeta. intros Hst.
  destruct op; run_operation c; cbn; repeat split;
    try reflexivity; try (destruct Hst; congruence); try (now left); try (now right).
Qed.

(** X3.  Once a reschedule has been requested or applied (status [overdue]
    or [rescheduled]) no sequence of operations brings the consultation
    back: the status stays one of the two, so check-in, ready and start are
    refused from then on and their time and actor columns never change. *)
Theorem reschedule_is_a_dead_end (ops : list Operation) (c : Consultation) (w : World) :
  in_reschedule (status c) ->
  let c' := (after ops c w).1 in
  in_reschedule (status c')
  /\ checked_in_at c' = checked_in_at c
  /\ checked_in_by c' = checked_in_by c
  /\ ready_for_consultation_at c' = ready_for_consultation_at c
  /\ ready_marked_by c' = ready_marked_by c
  /\ actual_start_time c' = actual_start_time c.
Proof.
  cbv zeta. revert c w. induction ops as [|op ops IH]; intros c w Hst.
  - cbn. repeat split. exact Hst.
  - cbn [after].
    destruct (perform_in_reschedule op c w Hst) as (H0 & H1 & H2 & H3 & H4 & H5).
    destruct (IH _ (world_after (perform op c w)) H0) as (K0 & K1 & K2 & K3 & K4 & K5).
    repeat split; congruence.
Qed.

Lemma reschedule_is_a_dead_end_witness :
  let c0 := new_consultation 20000 0 50000 in
  let w0 := empty_world (20000 * microseconds_per_day + timedelta_hours 2) 0 in
  let o := request_reschedule 3%nat "late" c0 w0 in
  let c' := (after [CheckInPatient 7%nat; MarkReadyForConsultation 7%nat;
                    StartConsultation] (self_after o) (world_after o)).1 in
  in_reschedule (status (self_after o))
  /\ in_reschedule (status c')
  /\ checked_in_at c' = None
  /\ actual_start_time c' = None.
Proof.
  cbv zeta.
  set (o := request_reschedule _ _ _ _).
  assert (Hst : in_reschedule (status (self_after o))) by (left; vm_compute; reflexivity).
  split; [exact Hst|].
  destruct (reschedule_is_a_dead_end
              [CheckInPatient 7%nat; MarkReadyForConsultation 7%nat; StartConsultation]
              (self_after o) (world_after o) Hst) as (H0 & H1 & _ & _ & _ & H5).
  split; [exact H0|]. split.
  - rewrite H1. vm_compute. reflexivity.
  - rewrite H5. vm_compute. reflexivity.
Defined.

(** X4.  [start_consultation] succeeds exactly from the statuses
    [ready_for_consultation] and [patient_checked_in].  From any other
    status, [scheduled] included, it returns false and changes nothing; when
    it succeeds the status is [in_progress], the start time is the current
    time, the check-in and ready columns are kept and the row is saved. *)
Theorem start_consultation_guard (c : Consultation) (w : World) :
  let o := start_consultation c w in
  (returned o = Return true <->
   status c = ready_for_consultation \/ status c = patient_checked_in)
  /\ (returned o = Return false <->
      status c <> ready_for_consultation /\ status c <> patient_checked_in)
  /\ (returned o = Return false -> self_after o = c /\ world_after o = w)
  /\ (returned o = Return true ->
      status (self_after o) = in_progress
      /\ actual_start_time (self_after o) = Some (clock w (reads w))
      /\ checked_in_at (self_after o) = checked_in_at c
      /\ ready_for_consultation_at (self_after o) = ready_for_consultation_at c
      /\ consultations (world_after o) !! id (self_after o) = Some (self_after o)).
Proof.
  cbv zeta. step_method.
  destruct (status c) eqn:Hst; decide_status; try use_save;
    repeat split; intros; try discriminate; try tauto; try congruence;
    try (intuition congruence); try apply lookup_insert_eq.
Qed.




(** X6.  An operation writes at most one row of the consultations table,
    the row under the key the instance has afterwards; it deletes no row,
    appends at most one row to the reschedule history and never rewrites
    one, and leaves the receipts, the clock and the time zone alone. *)
Theorem operations_write_only_their_own_row
    (op : Operation) (c : Consultation) (w : World) :
  let o := perform op c w in
  (forall k, k <> id (self_after o) ->
             consultations (world_after o) !! k = consultations w !! k)
  /\ (forall k, is_Some (consultations w !! k) ->
                is_Some (consultations (world_after o) !! k))
  /\ (exists extra,
        reschedule_history (world_after o) = reschedule_history w ++ extra
        /\ (length extra <= 1)%nat)
  /\ receipts (world_after o) = receipts w
  /\ clock (world_after o) = clock w
  /\ utcoffset (world_after o) = utcoffset w.
Proof.
  cbv zeta.
  assert (Hkeep : forall (m : gmap string Consultation) key row k,
             is_Some (m !! k) -> is_Some (<[key := row]> m !! k)).
  { intros m key row k Hk. destruct (decide (key = k)) as [->|Hne].
    - rewrite lookup_insert_eq. eauto.
    - now rewrite lookup_insert_ne. }
  destruct op; run_operation c; cbn;
    (split; [intros k Hk; try reflexivity; now rewrite lookup_insert_ne|]);
    (split; [intros k Hk; try assumption; now apply Hkeep|]);
    (split; [first [exists []; rewrite app_nil_r; split; [reflexivity|cbn; lia]
                   |eexists [_]; split; [reflexivity|cbn; lia]]|]);
    repeat split.
Qed.

(** X7.  An operation that returns true has stored the instance: the row of
    the consultations table under the key of the instance is the instance as
    the operation left it. *)
Theorem successful_operation_is_stored (op : Operation) (c : Consultation) (w : World) :
  returned (perform op c w) = Return true ->
  consultations (world_after (perform op c w)) !! id (self_after (perform op c w))
  = Some (self_after (perform op c w)).
Proof.
  destruct op; run_operation c; cbn; intros H; try discriminate;
    apply lookup_insert_eq.
Qed.

Lemma successful_operation_is_stored_witness :
  let c := new_consultation 20000 0 50000 in
  let o := perform (CheckInPatient 7%nat) c (empty_world 1234 0) in
  returned o = Return true
  /\ consultations (world_after o) !! "CON001" = Some (self_after o).
Proof.
  cbv zeta.
  assert (H : returned (perform (CheckInPatient 7%nat) (new_consultation 20000 0 50000)
                          (empty_world 1234 0)) = Return true)
    by (vm_compute; reflexivity).
  split; [exact H|].
  exact (successful_operation_is_stored _ _ _ H).
Defined.

(** The key after [save]: the one the instance had, or a new one made of
    the prefix and the padded number. *)
Lemma save_key (c : Consultation) (w : World) :
  id (self_after (save c w)) <> EmptyString
  /\ (id c <> EmptyString -> self_after (save c w) = c)
  /\ (id c = EmptyString ->
      exists n, new_number (consultations w) = Return n
                /\ self_after (save c w) = set_id ("CON" +:+ Py.format_0d 3 n) c)
  /\ world_after (save c w)
     = set_consultations
         (<[id (self_after (save c w)) := self_after (save c w)]> (consultations w)) w.
Proof.
  unfold save, mbind, attr, query, lift, assign, ret, super_save. cbn.
  destruct (String.eqb_spec (id c) EmptyString) as [Hid|Hid].
  - destruct (new_number_returns (consultations w)) as [n Hn]. rewrite Hn. cbn.
    split; [discriminate|]. split; [intros Hne; contradiction|].
    split; [|reflexivity]. intros _. exists n. split; reflexivity.
  - cbn. split; [exact Hid|]. split; [reflexivity|]. split; [contradiction|reflexivity].
Qed.



Lemma is_upcoming_outcome (c : Consultation) (w : World) :
  is_upcoming c w
  = Outcome
      (Return ((clock w (reads w)
                <? make_aware w (combine (scheduled_date c) (scheduled_time c)))
               && bool_decide (status c = scheduled)))
      c (tick w).
Proof. reflexivity. Qed.

Lemma is_overdue_outcome (c : Consultation) (w : World) :
  is_overdue c w
  = if status_in (status c) [completed; cancelled; rescheduled]
    then Outcome (Return false) c w
    else Outcome
           (Return (make_aware w (combine (scheduled_date c) (scheduled_time c))
                    <? clock w (reads w)))
           c (tick w).
Proof.
  unfold is_overdue, scheduled_datetime, mbind, attr, ret, timezone_now.
  destruct (status_in (status c) [completed; cancelled; rescheduled]); reflexivity.
Qed.

(** X9.  The derived properties agree with each other at one reading of the
    clock: ready implies checked in; a consultation is never both upcoming
    and overdue; an upcoming one is not eligible for a reschedule; an
    eligible one is overdue unless its status is [rescheduled].  None of
    them changes the instance or a table. *)
Theorem derived_properties_agree (c : Consultation) (w : World) :
  let value (p : M Consultation bool) := returned (p c w) in
  (value is_ready_for_consultation = Return true -> value is_checked_in = Return true)
  /\ ~ (value is_upcoming = Return true /\ value is_overdue = Return true)
  /\ (value is_upcoming = Return true -> value is_eligible_for_reschedule = Return false)
  /\ (value is_eligible_for_reschedule = Return true ->
      status c = rescheduled \/ value is_overdue = Return true)
  /\ (forall p, In p [is_ready_for_consultation; is_checked_in; is_upcoming; is_overdue;
                      is_eligible_for_reschedule] ->
                self_after (p c w) = c /\ same_tables w (world_after (p c w))).
Proof.
  cbv beta zeta.
  rewrite is_upcoming_outcome, is_overdue_outcome, is_eligible_for_reschedule_outcome.
  unfold timedelta_hours.
  set (dt := make_aware w (combine (scheduled_date c) (scheduled_time c))).
  set (now := clock w (reads w)).
  split; [|split; [|split; [|split]]].
  - unfold is_ready_for_consultation, is_checked_in, mbind, attr, ret.
    destruct (status c); vm_compute; congruence.
  - destruct (status c); decide_status; intros [Hup Hover]; try discriminate;
      injection Hup as Hup; injection Hover as Hover;
      apply andb_true_iff in Hup as [Hup _];
      apply Z.ltb_lt in Hup; apply Z.ltb_lt in Hover; lia.
  - destruct (status c); decide_status; intros Hup; try reflexivity;
      injection Hup as Hup; apply andb_true_iff in Hup as [Hup Hst];
      try discriminate.
    apply Z.ltb_lt in Hup. f_equal. apply Z.ltb_ge. lia.
  - destruct (status c); decide_status; intros Hel; try discriminate;
      try (now left); right; injection Hel as Hel;
      apply Z.ltb_lt in Hel; f_equal; apply Z.ltb_lt; lia.
  - intros p Hp. cbn in Hp.
    destruct Hp as [<-|[<-|[<-|[<-|[<-|[]]]]]];
      rewrite ?is_upcoming_outcome, ?is_overdue_outcome,
        ?is_eligible_for_reschedule_outcome;
      unfold is_ready_for_consultation, is_checked_in, mbind, attr, ret;
      repeat match goal with
        | |- context [if ?b then _ else _] => destruct b
        end;
      cbn; repeat split.
Qed.






(** * Beyond the claims: numbers in keys *)

Lemma digit_step (acc : Z) (b : bool) (c : ascii) (s : string) (d : Z) :
  Py.digit_value c = Some d ->
  Py.digits acc b (String c s) = Py.digits (10 * acc + d) true s.
Proof. intros H. cbn [Py.digits]. now rewrite H. Qed.

Lemma digits_of_uint_acc (d : Decimal.uint) (p : positive) :
  Py.digits (Z.pos p) true (NilEmpty.string_of_uint d)
  = Some (Z.pos (Pos.of_uint_acc d p)).
Proof.
  revert p. induction d as [|d IH|d IH|d IH|d IH|d IH|d IH|d IH|d IH|d IH|d IH];
    intros p; cbn [NilEmpty.string_of_uint Pos.of_uint_acc]; [reflexivity|..];
    (erewrite digit_step by (vm_compute; reflexivity));
    rewrite <- IH; f_equal; lia.
Qed.

Lemma digits_of_uint (d : Decimal.uint) :
  Py.digits 0 true (NilEmpty.string_of_uint d) = Some (Z.of_N (Pos.of_uint d)).
Proof.
  induction d as [|d IH|d IH|d IH|d IH|d IH|d IH|d IH|d IH|d IH|d IH];
    cbn [NilEmpty.string_of_uint Pos.of_uint]; [reflexivity|..];
    (erewrite digit_step by (vm_compute; reflexivity));
    [exact IH|..];
    cbn [Z.of_N]; rewrite <- digits_of_uint_acc; f_equal.
Qed.

Lemma digits_first (acc : Z) (d : Decimal.uint) :
  d <> Decimal.Nil ->
  Py.digits acc false (NilEmpty.string_of_uint d)
  = Py.digits acc true (NilEmpty.string_of_uint d).
Proof.
  destruct d; [contradiction|..]; intros _; cbn [NilEmpty.string_of_uint];
    now erewrite !digit_step by (vm_compute; reflexivity).
Qed.

Lemma string_of_uint_nonnil (d : Decimal.uint) :
  d <> Decimal.Nil -> NilZero.string_of_uint d = NilEmpty.string_of_uint d.
Proof. destruct d; [contradiction|..]; reflexivity. Qed.

(** The decimal text of a number that is not negative parses back. *)
Lemma digits_str (n : Z) : 0 <= n -> Py.digits 0 true (Py.str n) = Some n.
Proof.
  intros Hn. unfold Py.str. destruct n as [|p|p]; [reflexivity| |lia].
  unfold Z.to_int, NilZero.string_of_int.
  rewrite (string_of_uint_nonnil _ (DecimalPos.Unsigned.to_uint_nonnil p)).
  now rewrite digits_of_uint, DecimalPos.Unsigned.of_to.
Qed.

Import Numbering.

Lemma app_empty_r (s : string) : s +:+ EmptyString = s.
Proof. induction s as [|c s IH]; [reflexivity|]. rewrite app_cons. now f_equal. Qed.

Lemma app_assoc_text (a b c : string) : (a +:+ b) +:+ c = a +:+ (b +:+ c).
Proof. induction a as [|x a IH]; [reflexivity|]. rewrite !app_cons. now f_equal. Qed.

Lemma all_chars_rev_app (p : ascii -> bool) (s acc : string) :
  Py.all_chars p (String.rev_app s acc) = Py.all_chars p s && Py.all_chars p acc.
Proof.
  revert acc. induction s as [|c s IH]; intros acc; [reflexivity|].
  cbn [String.rev_app Py.all_chars]. rewrite IH. cbn [Py.all_chars].
  destruct (p c), (Py.all_chars p s); reflexivity.
Qed.

Lemma rev_app_rev_app (s a b : string) :
  String.rev_app (String.rev_app s a) b = String.rev_app a (s +:+ b).
Proof.
  revert a b. induction s as [|c s IH]; intros a b; [reflexivity|].
  cbn [String.rev_app]. rewrite IH. reflexivity.
Qed.

Lemma rev_rev (s : string) : String.rev (String.rev s) = s.
Proof. unfold String.rev. rewrite rev_app_rev_app. cbn. apply app_empty_r. Qed.

Lemma lstrip_id (s : string) : Py.all_chars not_space s = true -> Py.lstrip s = s.
Proof.
  destruct s as [|c s]; [reflexivity|]. cbn. unfold not_space.
  destruct (Py.isspace c); [discriminate|reflexivity].
Qed.

(** [strip] leaves a text without white space as it is. *)
Lemma strip_id (s : string) : Py.all_chars not_space s = true -> Py.strip s = s.
Proof.
  intros H. unfold Py.strip. rewrite (lstrip_id s H), lstrip_id, rev_rev; [reflexivity|].
  unfold String.rev. now rewrite all_chars_rev_app, H.
Qed.

Lemma digit_not_space (c : ascii) : is_digit c = true -> not_space c = true.
Proof.
  destruct c as [[] [] [] [] [] [] [] []]; vm_compute; congruence.
Qed.

Lemma int_unsigned (c : ascii) (r : string) :
  is_digit c = true ->
  Py.strip (String c r) = String c r ->
  Py.int (String c r)
  = match Py.digits 0 false (String c r) with
    | Some n => Return n
    | None => Raise ValueError
    end.
Proof.
  intros Hc Hs. unfold Py.int. rewrite Hs. clear Hs. revert Hc.
  destruct c as [[] [] [] [] [] [] [] []]; try (vm_compute; discriminate);
    intros _; reflexivity.
Qed.

Lemma string_of_uint_digits (d : Decimal.uint) :
  Py.all_chars is_digit (NilEmpty.string_of_uint d) = true.
Proof. induction d; cbn [NilEmpty.string_of_uint Py.all_chars]; [reflexivity|..]; exact IHd. Qed.

Lemma str_digits (n : Z) : 0 <= n -> Py.all_chars is_digit (Py.str n) = true.
Proof.
  intros Hn. unfold Py.str. destruct n as [|p|p]; [reflexivity| |lia].
  unfold Z.to_int, NilZero.string_of_int.
  rewrite (string_of_uint_nonnil _ (DecimalPos.Unsigned.to_uint_nonnil p)).
  apply string_of_uint_digits.
Qed.

Lemma str_nonempty (n : Z) : 0 <= n -> exists c r, Py.str n = String c r.
Proof.
  intros Hn. unfold Py.str. destruct n as [|p|p]; [eexists _, _; reflexivity| |lia].
  unfold Z.to_int, NilZero.string_of_int.
  pose proof (DecimalPos.Unsigned.to_uint_nonnil p) as Hnil.
  rewrite (string_of_uint_nonnil _ Hnil).
  destruct (Pos.to_uint p); [contradiction|..]; eexists _, _; reflexivity.
Qed.

Lemma zeros_digits (k : nat) : Py.all_chars is_digit (Py.zeros k) = true.
Proof. induction k as [|k IH]; [reflexivity|exact IH]. Qed.

Lemma digits_zeros (k : nat) (s : string) :
  Py.digits 0 true (Py.zeros k +:+ s) = Py.digits 0 true s.
Proof.
  induction k as [|k IH]; [reflexivity|].
  cbn [Py.zeros]. rewrite app_cons.
  erewrite digit_step by (vm_compute; reflexivity). exact IH.
Qed.

(** A padded number that is not negative: only digits, never empty, and it
    parses back to the number. *)
Lemma padded_digits (k : nat) (n : Z) :
  0 <= n ->
  Py.all_chars is_digit (Py.zeros k +:+ Py.str n) = true
  /\ Py.digits 0 false (Py.zeros k +:+ Py.str n) = Some n
  /\ exists c r, Py.zeros k +:+ Py.str n = String c r.
Proof.
  intros Hn. split; [|split].
  - now rewrite all_chars_app, zeros_digits, str_digits.
  - destruct (str_nonempty n Hn) as (c & r & Hstr).
    assert (Hfirst : forall s c' r', s = String c' r' ->
              Py.all_chars is_digit s = true ->
              Py.digits 0 false s = Py.digits 0 true s).
    { intros s c' r' -> Hall. cbn in Hall. apply andb_true_iff in Hall as [Hc _].
      unfold is_digit in Hc. destruct (Py.digit_value c') as [d|] eqn:Hd; [|discriminate].
      now rewrite !(digit_step _ _ _ _ _ Hd). }
    destruct k as [|k].
    + cbn [Py.zeros]. rewrite app_empty_l.
      rewrite (Hfirst _ _ _ Hstr (str_digits n Hn)). now apply digits_str.
    + rewrite (Hfirst (Py.zeros (S k) +:+ Py.str n) "0"%char (Py.zeros k +:+ Py.str n)).
      * rewrite digits_zeros. now apply digits_str.
      * reflexivity.
      * now rewrite all_chars_app, zeros_digits, str_digits.
  - destruct (str_nonempty n Hn) as (c & r & Hstr). destruct k as [|k].
    + exists c, r. now rewrite <- Hstr.
    + eexists _, _. cbn [Py.zeros]. rewrite app_cons. reflexivity.
Qed.

(** [int] reads back what the zero-padded format writes, for every width
    and every number. *)
Lemma int_format_0d (width : nat) (n : Z) : Py.int (Py.format_0d width n) = Return n.
Proof.
  unfold Py.format_0d. destruct (Z.ltb_spec n 0) as [Hneg|Hpos].
  - set (k := (width - String.length "-" - String.length (Py.str (Z.abs n)))%nat).
    destruct (padded_digits k (Z.abs n) ltac:(lia)) as (Hall & Hdig & _).
    change ("-" +:+ Py.zeros k +:+ Py.str (Z.abs n))
      with (String "-" (Py.zeros k +:+ Py.str (Z.abs n))).
    unfold Py.int. rewrite strip_id.
    + rewrite Hdig. f_equal. lia.
    + cbn [Py.all_chars]. apply andb_true_iff. split; [reflexivity|].
      apply (all_chars_weaken is_digit); [apply digit_not_space|exact Hall].
  - set (k := (width - String.length EmptyString - String.length (Py.str (Z.abs n)))%nat).
    rewrite app_empty_l.
    destruct (padded_digits k (Z.abs n) ltac:(lia)) as (Hall & Hdig & c & r & Hcr).
    rewrite Hcr in *. rewrite int_unsigned.
    + rewrite Hdig. f_equal. lia.
    + cbn in Hall. now apply andb_true_iff in Hall as [Hc _].
    + apply strip_id. apply (all_chars_weaken is_digit); [apply digit_not_space|exact Hall].
Qed.

Lemma leb_refl (s : string) : String.leb s s = true.
Proof. destruct (String.leb_total s s); assumption. Qed.

Lemma leb_trans (a b c : string) :
  String.leb a b = true -> String.leb b c = true -> String.leb a c = true.
Proof.
  intros Hab Hbc. apply Is_true_true.
  apply (transitivity (R := String.le) (y := b)); apply Is_true_true; assumption.
Qed.

(** [order_by('id').last()] on a list of rows: nothing for no row, else a
    row of the list whose key no other exceeds. *)
Lemma last_by_id_of_list (l : list (string * Consultation)) :
  match foldr (fun kv acc => Some (from_option (later kv.2) kv.2 acc)) None l with
  | None => l = []
  | Some c =>
      (exists k, (k, c) ∈ l)
      /\ forall k' c', (k', c') ∈ l -> String.leb (id c') (id c) = true
  end.
Proof.
  induction l as [|[k row] l IH]; [reflexivity|].
  cbn [foldr].
  destruct (foldr _ None l) as [best|]; cbn [from_option snd].
  - destruct IH as [[kb Hb] Hmax]. unfold later.
    destruct (String.leb (id row) (id best)) eqn:Hle.
    + split; [exists kb; apply elem_of_cons; now right|].
      intros k' c' [[= -> ->]|Hin]%elem_of_cons; [exact Hle|now apply (Hmax k')].
    + assert (Hge : String.leb (id best) (id row) = true).
      { destruct (String.leb_total (id row) (id best)); congruence. }
      split; [exists k; apply elem_of_cons; now left|].
      intros k' c' [[= -> ->]|Hin]%elem_of_cons; [apply leb_refl|].
      apply (leb_trans _ (id best)); [now apply (Hmax k')|exact Hge].
  - subst l. split; [exists k; apply elem_of_cons; now left|].
    intros k' c' [[= -> ->]|Hin]%elem_of_cons; [apply leb_refl|].
    now apply elem_of_nil in Hin.
Qed.

Lemma order_by_id_last_spec (rows : gmap string Consultation) :
  match order_by_id_last rows with
  | None => rows = ∅
  | Some c =>
      (exists k, rows !! k = Some c)
      /\ forall k' c', rows !! k' = Some c' -> String.leb (id c') (id c) = true
  end.
Proof.
  unfold order_by_id_last.
  pose proof (last_by_id_of_list (map_to_list rows)) as H.
  destruct (foldr _ None (map_to_list rows)) as [c|].
  - destruct H as [[k Hk] Hmax]. split.
    + exists k. now apply elem_of_map_to_list.
    + intros k' c' Hc'. apply (Hmax k'). now apply elem_of_map_to_list.
  - now apply map_to_list_empty_iff.
Qed.

(** The number after a table whose greatest key is well formed. *)
Lemma new_number_after (rows : gmap string Consultation) (top : Consultation) (n : Z) :
  (exists k, rows !! k = Some top) ->
  (forall k row, rows !! k = Some row -> String.leb (id row) (id top) = true) ->
  id top = "CON" +:+ Py.format_0d 3 n ->
  new_number rows = Return (n + 1).
Proof.
  intros [k Hk] Hmax Hid. unfold new_number.
  pose proof (order_by_id_last_spec rows) as Hlast.
  destruct (order_by_id_last rows) as [best|].
  - destruct Hlast as [[kb Hb] Hbest].
    assert (Hsame : id best = id top).
    { apply String.leb_antisym; [now apply (Hmax kb)|now apply (Hbest k)]. }
    rewrite Hsame, Hid.
    replace (Py.startswith ("CON" +:+ Py.format_0d 3 n) "CON") with true
      by (now destruct (Py.format_0d 3 n)).
    change (Py.slice_from 3 ("CON" +:+ Py.format_0d 3 n)) with (Py.format_0d 3 n).
    cbn match. rewrite int_format_0d. reflexivity.
  - subst rows. now rewrite lookup_empty in Hk.
Qed.

(** X11.  Keys of consultations are sequential where the table is well
    formed: when the greatest key of the table, in the order of texts, is
    CON followed by the padded number [n], a new consultation is saved
    under CON followed by the padded [n + 1]; in an empty table the first
    key is CON001. *)
Theorem consultation_keys_are_sequential
    (c : Consultation) (w : World) (top : Consultation) (n : Z) :
  id c = EmptyString ->
  (consultations w = ∅ -> id (self_after (save c w)) = "CON001")
  /\ ((exists k, consultations w !! k = Some top) ->
      (forall k row, consultations w !! k = Some row ->
                     String.leb (id row) (id top) = true) ->
      id top = "CON" +:+ Py.format_0d 3 n ->
      id (self_after (save c w)) = "CON" +:+ Py.format_0d 3 (n + 1)).
Proof.
  intros Hid. destruct (save_key c w) as (_ & _ & Hnew & _).
  destruct (Hnew Hid) as (m & Hm & Hself). rewrite Hself. split.
  - intros Hempty. rewrite Hempty in Hm. vm_compute in Hm.
    injection Hm as <-. reflexivity.
  - intros Hk Hmax Htop. rewrite (new_number_after _ top n Hk Hmax Htop) in Hm.
    injection Hm as <-. reflexivity.
Qed.

Lemma consultation_keys_are_sequential_witness :
  let top := set_id "CON007" (new_consultation 20000 0 50000) in
  let w := set_consultations {[ "CON007" := top ]} (empty_world 0 0) in
  let c := new_consultation 20001 0 50000 in
  id c = EmptyString /\ id (self_after (save c w)) = "CON008".
Proof.
  cbv zeta. split; [reflexivity|].
  apply (consultation_keys_are_sequential (new_consultation 20001 0 50000)
           (set_consultations
              {[ "CON007" := set_id "CON007" (new_consultation 20000 0 50000) ]}
              (empty_world 0 0))
           (set_id "CON007" (new_consultation 20000 0 50000)) 7 eq_refl).
  - exists "CON007". vm_compute. reflexivity.
  - intros k row Hrow. cbn in Hrow.
    apply lookup_singleton_Some in Hrow as [_ <-]. reflexivity.
  - reflexivity.
Defined.






(** * Beyond the claims: the payment gateway *)

Import PhonePeCalls.

Lemma verify_true_digest (self : PhonePeService.t) (payload header : string) :
  PhonePeService.verify_webhook_signature self payload header = true ->
  exists index,
    Py.split3 header
    = [Hashlib.sha256_hexdigest (Py.encode (payload +:+ PhonePeService.salt_key self));
       index].
Proof.
  unfold PhonePeService.verify_webhook_signature.
  destruct (Py.split3 header) as [|received [|index [|extra rest]]]; cbn;
    try discriminate.
  destruct (Hmac.compare_digest _ received) as [[|]|e] eqn:Hcmp; cbn; try discriminate.
  intros _. exists index. now rewrite (compare_digest_true _ _ Hcmp).
Qed.

(** X14.  A webhook text is processed only behind its signature: when
    [process_webhook] reports success for a raw text, the header splits
    into exactly two parts, the first is the SHA-256 digest of the text
    followed by the salt key, and the decoder gave a [dict]; with any other
    header the result is the invalid-signature failure and the decoder's
    answer plays no part. *)
Theorem webhook_text_needs_its_signature
    (decode : string -> result Json.value) (describe : caught -> string)
    (self : PhonePeService.t) (raw header : string) :
  let result := process_webhook decode describe self (Text raw) header in
  (succeeded result ->
   (exists index,
      Py.split3 header
      = [Hashlib.sha256_hexdigest (Py.encode (raw +:+ PhonePeService.salt_key self));
         index])
   /\ exists d, decode raw = Return (Json.Object d))
  /\ (PhonePeService.verify_webhook_signature self raw header = false ->
      result = failure "Invalid webhook signature"
      /\ forall other_decoder,
           process_webhook other_decoder describe self (Text raw) header = result).
Proof.
  cbv zeta. unfold process_webhook. split.
  - destruct (PhonePeService.verify_webhook_signature self raw header) eqn:Hv; cbn.
    + intros (d & Hres & Hok). split; [now apply verify_true_digest|].
      destruct (decode raw) as [[| | | | |members]|e]; cbn in Hres;
        try (injection Hres as <-; cbn in Hok; discriminate).
      eexists. reflexivity.
    + intros (d & Hres & Hok). injection Hres as <-. cbn in Hok. discriminate.
  - intros ->. cbn. split; reflexivity.
Qed.

(** X15.  A payload that arrives already structured is not verified: for a
    [dict], whatever the header is, [process_webhook] reports success,
    returns the payload itself as the response and reads the state and the
    identifiers from it, with the empty text for a missing member. *)
Theorem webhook_structure_skips_verification
    (decode : string -> result Json.value) (describe : caught -> string)
    (self : PhonePeService.t) (members : list (string * Json.value)) (header : string) :
  let result := process_webhook decode describe self (Structured (Json.Object members))
                  header in
  succeeded result
  /\ result = process_webhook decode describe self (Structured (Json.Object members))
                EmptyString
  /\ exists d,
       result = Json.Object d
       /\ Json.get d "response" Json.Null = Json.Object members
       /\ Json.get d "status" Json.Null
          = Json.get members "state" (Json.Str EmptyString)
       /\ Json.get d "merchant_transaction_id" Json.Null
          = Json.get members "merchantTransactionId" (Json.Str EmptyString).
Proof.
  cbv zeta. cbn. split; [|split; [reflexivity|]].
  - eexists. split; reflexivity.
  - eexists. repeat split.
Qed.

(** X16.  Signing a text the way the gateway signs a webhook and verifying
    it round-trips, for every salt index: the header made of the digest of
    the text followed by the salt key, the separator and any index is
    accepted exactly when the index holds no further separator.  The index
    is never compared with the configured salt index. *)
Theorem webhook_signature_round_trip
    (self : PhonePeService.t) (payload index : string) :
  PhonePeService.verify_webhook_signature self payload
    (Hashlib.sha256_hexdigest (Py.encode (payload +:+ PhonePeService.salt_key self))
     +:+ "###" +:+ index)
  = bool_decide (length (Py.split3 index) = 1%nat).
Proof.
  set (h := Hashlib.sha256_hexdigest _).
  assert (Hsplit : Py.split3 (h +:+ "###" +:+ index) = h :: Py.split3 index).
  { apply split3_prefix.
    apply (all_chars_weaken Spec.lower_hex);
      [intros c Hc; now rewrite (lower_hex_not_hash c Hc)|].
    apply sha256_hexdigest_lower. }
  unfold PhonePeService.verify_webhook_signature. rewrite Hsplit. fold h.
  destruct (Py.split3 index) as [|i [|j rest]]; cbn [length Nat.eqb negb];
    try reflexivity.
  cbn [getitem lookup list_lookup bind]. unfold Hmac.compare_digest.
  assert (Hascii : Py.isascii h = true) by apply sha256_hexdigest_isascii.
  rewrite Hascii, String.eqb_refl. reflexivity.
Qed.

(** X17.  The payload of [initiate_payment] identifies the user by the
    e-mail address when the customer has one that is not empty, else by the
    mobile number, and by the empty text when neither is given; the
    transaction identifier is TXN, the payment identifier and the first
    eight characters of the UUID in capitals, and the redirect URL ends
    with it. *)
Theorem payment_payload_identifies_the_user
    (self : PhonePeService.t) (payment_id : string) (a : PhonePeService.amount)
    (customer_info : list (string * Json.value)) (additional_info : Json.value)
    (uuid4_hex : string) (req : PhonePeService.pay_request) :
  PhonePeService.initiate_payment_request self payment_id a customer_info
    additional_info uuid4_hex = Return req ->
  exists members,
    PhonePeService.payload req = Json.Object members
    /\ Json.get members "merchantUserId" Json.Null
       = (let email := Json.get customer_info "email" Json.Null in
          if Json.truthy email then email
          else Json.get customer_info "mobile" (Json.Str EmptyString))
    /\ Json.get members "mobileNumber" Json.Null
       = Json.get customer_info "mobile" (Json.Str EmptyString)
    /\ PhonePeService.transaction_id req
       = "TXN" +:+ payment_id +:+ Py.upper (Py.slice_to 8 uuid4_hex)
    /\ Json.get members "merchantTransactionId" Json.Null
       = Json.Str (PhonePeService.transaction_id req)
    /\ Json.get members "redirectUrl" Json.Null
       = Json.Str (PhonePeService.redirect_url self +:+ "?transaction_id="
                   +:+ PhonePeService.transaction_id req)
    /\ (Json.get members "additionalInfo" Json.Null
        = if Json.truthy additional_info then additional_info else Json.Null).
Proof.
  unfold PhonePeService.initiate_payment_request.
  destruct (PhonePeService.amount_in_paise a) as [paise|e]; [|discriminate].
  cbn [bind]. intros [= <-]. cbn [PhonePeService.payload PhonePeService.transaction_id].
  eexists. split; [reflexivity|].
  destruct (Json.truthy (Json.get customer_info "email" Json.Null)),
    (Json.truthy additional_info); cbn; repeat split.
Qed.

Lemma payment_payload_identifies_the_user_witness :
  let self := PhonePeService.init ∅ in
  let customer := [("mobile", Json.Str "9990001112"); ("email", Json.Str "a@b.in")] in
  exists req members,
    PhonePeService.initiate_payment_request self "42" (PhonePeService.Decimal2 10000)
      customer Json.Null "abcdef1234567890abcdef1234567890" = Return req
    /\ PhonePeService.payload req = Json.Object members
    /\ Json.get members "merchantUserId" Json.Null = Json.Str "a@b.in"
    /\ PhonePeService.transaction_id req = "TXN42ABCDEF12".
Proof.
  cbv zeta.
  destruct (PhonePeService.initiate_payment_request (PhonePeService.init ∅) "42"
              (PhonePeService.Decimal2 10000)
              [("mobile", Json.Str "9990001112"); ("email", Json.Str "a@b.in")]
              Json.Null "abcdef1234567890abcdef1234567890") as [req|e] eqn:Hreq;
    [|vm_compute in Hreq; discriminate].
  destruct (payment_payload_identifies_the_user _ _ _ _ _ _ _ Hreq)
    as (members & Hp & Huser & _ & Htxn & _).
  exists req, members. split; [reflexivity|]. split; [exact Hp|].
  split; [rewrite Huser; reflexivity|]. rewrite Htxn. reflexivity.
Defined.

Lemma check_below_all (f : Z -> bool) (n : N) :
  Amounts.check_below f n = true ->
  forall h, 0 <= h < Z.of_N n -> f h = true.
Proof.
  unfold Amounts.check_below.
  set (step := fun s : Z * bool => (fst s + 1, snd s && f (fst s))).
  assert (Hinv : forall m,
             fst (N.iter m step (0, true)) = Z.of_N m
             /\ (snd (N.iter m step (0, true)) = true ->
                 forall h, 0 <= h < Z.of_N m -> f h = true)).
  { induction m as [|m [Hfst Hsnd]] using N.peano_ind.
    - split; [reflexivity|]. intros _ h Hh. lia.
    - rewrite N.iter_succ. unfold step at 1 3. cbn [fst snd]. rewrite Hfst.
      split; [lia|]. intros [Hok Hf]%andb_true_iff h Hh.
      destruct (Z.eq_dec h (Z.of_N m)) as [->|Hne]; [exact Hf|].
      apply Hsnd; [exact Hok|lia]. }
  intros Hall. exact (proj2 (Hinv n) Hall).
Qed.

(** X18.  For every two-place amount from 0.00 to 1000.00 the conversion
    of [initiate_payment] ends with a number of minor units that is the
    exact one or one less, never more; for every whole amount from 0 to
    20000 major units it is exact. *)
Theorem amount_in_paise_loses_at_most_one (h : Z) :
  0 <= h <= 100000 ->
  (exists v, PhonePeService.amount_in_paise (PhonePeService.Decimal2 h) = Return v
             /\ h - 1 <= v <= h)
  /\ (h <= 20000 ->
      PhonePeService.amount_in_paise (PhonePeService.Decimal2 (100 * h))
      = Return (100 * h)).
Proof.
  intros Hh. split.
  - assert (Hall : Amounts.check_below Amounts.within_one 100001 = true)
      by (vm_compute; reflexivity).
    pose proof (check_below_all _ _ Hall h ltac:(lia)) as H.
    unfold Amounts.within_one in H.
    destruct (PhonePeService.amount_in_paise (PhonePeService.Decimal2 h)) as [v|e];
      [|discriminate].
    exists v. split; [reflexivity|]. lia.
  - intros Hk.
    assert (Hall : Amounts.check_below Amounts.whole_exact 20001 = true)
      by (vm_compute; reflexivity).
    pose proof (check_below_all _ _ Hall h ltac:(lia)) as H.
    unfold Amounts.whole_exact in H.
    destruct (PhonePeService.amount_in_paise (PhonePeService.Decimal2 (100 * h)))
      as [v|e]; [|discriminate].
    f_equal. lia.
Qed.

Lemma amount_in_paise_loses_at_most_one_witness :
  0 <= 29 <= 100000
  /\ exists v, PhonePeService.amount_in_paise (PhonePeService.Decimal2 29) = Return v
               /\ 29 - 1 <= v <= 29.
Proof.
  split; [lia|].
  exact (proj1 (amount_in_paise_loses_at_most_one 29 ltac:(lia))).
Defined.

(** * Beyond the claims: the migration of patients to clinics *)

Import Migration.

Lemma add_count_clinics (c : nat) (groups : list (nat * nat)) (x : nat) :
  In x (map fst (add_count c groups)) <-> x = c \/ In x (map fst groups).
Proof.
  induction groups as [|[c' n] rest IH]; cbn; [intuition congruence|].
  destruct (Nat.eqb_spec c' c) as [->|Hne]; cbn; [intuition congruence|].
  rewrite IH. intuition congruence.
Qed.

Lemma add_count_nodup (c : nat) (groups : list (nat * nat)) :
  List.NoDup (map fst groups) -> List.NoDup (map fst (add_count c groups)).
Proof.
  induction groups as [|[c' n] rest IH]; cbn; intros Hnd.
  - constructor; [intros []|constructor].
  - apply List.NoDup_cons_iff in Hnd as [Hnot Hnd].
    destruct (Nat.eqb_spec c' c) as [->|Hne]; cbn.
    + apply List.NoDup_cons_iff. now split.
    + apply List.NoDup_cons_iff. split; [|now apply IH].
      rewrite add_count_clinics. intros [->|Hin]; [now apply Hne|now apply Hnot].
Qed.

(** The clinics counted for a patient are those of the patient's rows, each
    once. *)
Lemma count_by_clinic_spec (rows : list ConsultationRow) (p : nat) :
  List.NoDup (map fst (count_by_clinic rows p))
  /\ forall c, In c (map fst (count_by_clinic rows p)) <->
               exists row, In row rows /\ patient row = p /\ clinic row = Some c.
Proof.
  unfold count_by_clinic.
  assert (Hgen : forall acc,
    List.NoDup (map fst acc) ->
    let step := fun groups row =>
      if Nat.eqb (patient row) p
      then match clinic row with Some c => add_count c groups | None => groups end
      else groups in
    List.NoDup (map fst (fold_left step rows acc))
    /\ forall c, In c (map fst (fold_left step rows acc)) <->
                 In c (map fst acc)
                 \/ exists row, In row rows /\ patient row = p /\ clinic row = Some c).
  { induction rows as [|row rows IH]; intros acc Hnd; cbn.
    - split; [exact Hnd|]. intros c. split; [tauto|]. intros [H|(r & [] & _)]. exact H.
    - destruct (Nat.eqb_spec (patient row) p) as [Hp|Hp].
      + destruct (clinic row) as [c0|] eqn:Hc.
        * destruct (IH (add_count c0 acc) (add_count_nodup _ _ Hnd)) as [H1 H2].
          split; [exact H1|]. intros c. rewrite H2, add_count_clinics. split.
          -- intros [[->|H]|(r & Hr & Hrp & Hrc)]; [right|now left|right].
             ++ exists row. split; [now left|]. now split.
             ++ exists r. split; [now right|]. now split.
          -- intros [H|(r & [<-|Hr] & Hrp & Hrc)].
             ++ left. now right.
             ++ left. left. congruence.
             ++ right. exists r. now split.
        * destruct (IH acc Hnd) as [H1 H2]. split; [exact H1|].
          intros c. rewrite H2. split.
          -- intros [H|(r & Hr & Hrp & Hrc)]; [now left|right].
             exists r. split; [now right|]. now split.
          -- intros [H|(r & [<-|Hr] & Hrp & Hrc)]; [now left|congruence|right].
             exists r. now split.
      + destruct (IH acc Hnd) as [H1 H2]. split; [exact H1|].
        intros c. rewrite H2. split.
        -- intros [H|(r & Hr & Hrp & Hrc)]; [now left|right].
           exists r. split; [now right|]. now split.
        -- intros [H|(r & [<-|Hr] & Hrp & Hrc)]; [now left|congruence|right].
           exists r. now split. }
  destruct (Hgen [] (List.NoDup_nil _)) as [H1 H2]. split; [exact H1|].
  intros c. rewrite H2. cbn. tauto.
Qed.

Lemma insert_by_count_perm (e : nat * nat) (sorted : list (nat * nat)) :
  Permutation (insert_by_count e sorted) (e :: sorted).
Proof.
  induction sorted as [|x rest IH]; cbn [insert_by_count]; [reflexivity|].
  destruct (Nat.ltb (snd x) (snd e)); [reflexivity|].
  rewrite IH. apply perm_swap.
Qed.

Lemma order_by_count_perm (groups : list (nat * nat)) :
  Permutation (order_by_count groups) groups.
Proof.
  unfold order_by_count.
  assert (Hgen : forall acc,
             Permutation (fold_left (fun sorted e => insert_by_count e sorted) groups acc)
               (groups ++ acc)).
  { induction groups as [|e rest IH]; intros acc; cbn; [reflexivity|].
    rewrite IH, insert_by_count_perm. symmetry. apply Permutation_middle. }
  rewrite Hgen. now rewrite app_nil_r.
Qed.

(** The entries the inner loop runs through: one per clinic the patient has
    consulted. *)
Lemma patient_consultations_spec (db : Database) (p : nat) :
  List.NoDup (map fst (patient_consultations db p))
  /\ forall c, In c (map fst (patient_consultations db p)) <-> consulted db p c.
Proof.
  unfold patient_consultations, consulted.
  destruct (count_by_clinic_spec (consultations db) p) as [Hnd Hin].
  pose proof (Permutation_map fst (order_by_count_perm (count_by_clinic (consultations db) p)))
    as Hperm.
  split.
  - eapply Permutation.Permutation_NoDup; [symmetry; exact Hperm|exact Hnd].
  - intros c. rewrite <- Hin. split; apply Permutation_in; [exact Hperm|now symmetry].
Qed.

Lemma exists_registration_app (rows extra : list ClinicPatient) (c p : nat) :
  exists_registration (rows ++ extra) c p
  = exists_registration rows c p || exists_registration extra c p.
Proof. apply existsb_app. Qed.

(** One pass of the inner loop: the table only grows, by a row of this
    patient and this clinic in a real run and by nothing in a dry run. *)
Lemma register_table (db : Database) (dry_run : bool) (p : nat)
    (st : progress) (entry : nat * nat) :
  table (register db dry_run p st entry) = table st
  \/ (dry_run = false
      /\ clinic_found db (fst entry) = true
      /\ exists_registration (table st) (fst entry) p = false
      /\ table (register db dry_run p st entry)
         = table st ++ [MkClinicPatient (fst entry) p "migrated" None true]
      /\ migrated_count (register db dry_run p st entry) = S (migrated_count st)).
Proof.
  unfold register.
  destruct (clinic_found db (fst entry)); cbn [negb]; [|now left].
  destruct (exists_registration (table st) (fst entry) p) eqn:Hex; [now left|].
  destruct dry_run; [now left|]. right. repeat split.
Qed.

Lemma register_counts (db : Database) (dry_run : bool) (p : nat)
    (st : progress) (entry : nat * nat) :
  table (register db dry_run p st entry) = table st ->
  dry_run = false ->
  migrated_count (register db dry_run p st entry) = migrated_count st.
Proof.
  unfold register. intros Htable ->.
  destruct (clinic_found db (fst entry)); cbn [negb] in *; [|reflexivity].
  destruct (exists_registration (table st) (fst entry) p); [reflexivity|].
  cbn in Htable. apply (f_equal (@length _)) in Htable.
  rewrite List.length_app in Htable. cbn in Htable. lia.
Qed.

(** The inner loop of a real run for patient [p]: the table grows by rows
    of [p] for clinics of the list, one per migration counted, and at the
    end every clinic of the list that exists is registered for [p]. *)
Lemma register_all (db : Database) (p : nat) (groups : list (nat * nat)) (st : progress) :
  let st' := fold_left (register db false p) groups st in
  (exists extra,
      table st' = table st ++ extra
      /\ migrated_count st' = (migrated_count st + length extra)%nat
      /\ Forall (fun r => created_row db r /\ cp_patient r = p
                          /\ In (cp_clinic r) (map fst groups)) extra)
  /\ (forall c, In c (map fst groups) -> clinic_found db c = true ->
                exists_registration (table st') c p = true)
  /\ (forall c q, exists_registration (table st) c q = true ->
                  exists_registration (table st') c q = true).
Proof.
  revert st. induction groups as [|e rest IH]; intros st; cbn [fold_left].
  - split; [|split].
    + exists []. rewrite app_nil_r. repeat split; [cbn; lia|constructor].
    + intros c [].
    + tauto.
  - destruct (IH (register db false p st e)) as ((extra & Ht & Hm & Hall) & Hreg & Hmono).
    cbv zeta in *.
    destruct (register_table db false p st e) as [Hsame|(_ & Hfound & Hnew & Hgrow & Hcount)].
    + split; [|split].
      * exists extra. rewrite (register_counts _ _ _ _ _ Hsame eq_refl) in Hm.
        rewrite Hsame in Ht. split; [exact Ht|]. split; [exact Hm|].
        eapply Forall_impl; [exact Hall|].
        intros r (H1 & H2 & H3). split; [exact H1|]. split; [exact H2|].
           rewrite map_cons. now apply in_cons.
      * intros c [<-|Hin] Hfound; [|now apply Hreg].
        apply Hmono. rewrite Hsame. unfold register in Hsame. rewrite Hfound in Hsame.
        cbn [negb] in Hsame.
        destruct (exists_registration (table st) (fst e) p) eqn:Hex; [reflexivity|].
        cbn in Hsame. apply (f_equal (@length _)) in Hsame.
        rewrite List.length_app in Hsame. cbn in Hsame. lia.
      * intros c q Hcq. apply Hmono. now rewrite Hsame.
    + split; [|split].
      * exists (MkClinicPatient (fst e) p "migrated" None true :: extra).
        rewrite Hgrow, <- app_assoc in Ht. rewrite Hcount in Hm.
        split; [exact Ht|]. split; [cbn [length]; lia|]. constructor.
        -- split; [repeat split; assumption|]. split; [reflexivity|].
           rewrite map_cons. now left.
        -- eapply Forall_impl; [exact Hall|].
           intros r (H1 & H2 & H3). split; [exact H1|]. split; [exact H2|].
           rewrite map_cons. now apply in_cons.
      * intros c [<-|Hin] Hf; [|now apply Hreg].
        apply Hmono. rewrite Hgrow, exists_registration_app. cbn.
        rewrite !Nat.eqb_refl. cbn. now rewrite orb_true_r.
      * intros c q Hcq. apply Hmono. rewrite Hgrow, exists_registration_app, Hcq.
        reflexivity.
Qed.

(** A dry run never writes the table. *)
Lemma register_dry (db : Database) (p : nat) (groups : list (nat * nat)) (st : progress) :
  table (fold_left (register db true p) groups st) = table st.
Proof.
  revert st. induction groups as [|e rest IH]; intros st; [reflexivity|].
  cbn [fold_left]. rewrite IH. unfold register.
  destruct (clinic_found db (fst e)); cbn [negb]; [|reflexivity].
  destruct (exists_registration (table st) (fst e) p); reflexivity.
Qed.

(** When every clinic of the list that exists is already registered for
    the patient, the inner loop creates nothing. *)
Lemma register_nothing_new (db : Database) (p : nat)
    (groups : list (nat * nat)) (st : progress) :
  (forall c, In c (map fst groups) -> clinic_found db c = true ->
             exists_registration (table st) c p = true) ->
  table (fold_left (register db false p) groups st) = table st
  /\ migrated_count (fold_left (register db false p) groups st) = migrated_count st.
Proof.
  revert st. induction groups as [|e rest IH]; intros st Hall; [now split|].
  cbn [fold_left].
  assert (Hstep : table (register db false p st e) = table st
                  /\ migrated_count (register db false p st e) = migrated_count st).
  { unfold register. destruct (clinic_found db (fst e)) eqn:Hf; cbn [negb]; [|now split].
    rewrite (Hall (fst e)); [now split|rewrite map_cons; now left|exact Hf]. }
  destruct Hstep as [Ht Hm].
  destruct (IH (register db false p st e)) as [Ht' Hm'].
  - intros c Hin Hf. rewrite Ht. apply Hall; [rewrite map_cons; now right|exact Hf].
  - split; congruence.
Qed.

(** The inner loop of a dry run and of a real run report the same when the
    clinics of the list are distinct and the two tables agree on them. *)
Lemma register_same_report (db : Database) (p : nat) (groups : list (nat * nat))
    (dry real : progress) :
  List.NoDup (map fst groups) ->
  same_report dry real ->
  (forall c, In c (map fst groups) ->
             exists_registration (table real) c p = exists_registration (table dry) c p) ->
  same_report (fold_left (register db true p) groups dry)
              (fold_left (register db false p) groups real).
Proof.
  revert dry real. induction groups as [|e rest IH]; intros dry real Hnd Hsame Hagree;
    [exact Hsame|].
  cbn [fold_left]. rewrite map_cons in Hnd. apply List.NoDup_cons_iff in Hnd as [Hnot Hnd].
  apply IH; [exact Hnd| |].
  - destruct Hsame as (H1 & H2 & H3 & H4). unfold register.
    rewrite (Hagree (fst e)) by (rewrite map_cons; now left).
    destruct (clinic_found db (fst e)); cbn [negb].
    + destruct (exists_registration (table dry) (fst e) p);
        repeat split; cbn; congruence.
    + repeat split; cbn; congruence.
  - intros c Hin.
    assert (Hne : fst e <> c) by (intros <-; contradiction).
    destruct (register_table db false p real e) as [->|(_ & _ & _ & -> & _)];
      destruct (register_table db true p dry e) as [->|(Hdry & _)]; try discriminate.
    + apply Hagree. rewrite map_cons. now right.
    + rewrite exists_registration_app. cbn.
      destruct (Nat.eqb_spec (fst e) c) as [Heq|_]; [contradiction|]. cbn.
      rewrite orb_false_r. apply Hagree. rewrite map_cons. now right.
Qed.

Lemma migrate_patient_cases (db : Database) (dry_run : bool) (st : progress) (u : UserRow) :
  (patient_consultations db (user_id u) = []
   /\ table (migrate_patient db dry_run st u) = table st
   /\ migrated_count (migrate_patient db dry_run st u) = migrated_count st
   /\ already_exists_count (migrate_patient db dry_run st u) = already_exists_count st
   /\ no_clinic_count (migrate_patient db dry_run st u) = S (no_clinic_count st)
   /\ output (migrate_patient db dry_run st u) = output st ++ [NoClinic (user_id u)])
  \/ (patient_consultations db (user_id u) <> []
      /\ migrate_patient db dry_run st u
         = fold_left (register db dry_run (user_id u))
             (patient_consultations db (user_id u)) st).
Proof.
  unfold migrate_patient.
  destruct (patient_consultations db (user_id u)) as [|e rest]; [left|right].
  - repeat split.
  - split; [discriminate|reflexivity].
Qed.

(** The outer loop of a real run over the patients [us]. *)
Lemma migrate_all (db : Database) (us : list UserRow) (st : progress) :
  let st' := fold_left (migrate_patient db false) us st in
  (exists extra,
      table st' = table st ++ extra
      /\ migrated_count st' = (migrated_count st + length extra)%nat
      /\ Forall (fun r => created_row db r
                          /\ consulted db (cp_patient r) (cp_clinic r)
                          /\ In (cp_patient r) (map user_id us)) extra)
  /\ (forall u c, In u us -> consulted db (user_id u) c -> clinic_found db c = true ->
                  exists_registration (table st') c (user_id u) = true)
  /\ (forall c q, exists_registration (table st) c q = true ->
                  exists_registration (table st') c q = true).
Proof.
  revert st. induction us as [|u rest IH]; intros st; cbn [fold_left].
  - split; [|split].
    + exists []. rewrite app_nil_r. repeat split; [cbn; lia|constructor].
    + intros u c [].
    + tauto.
  - destruct (IH (migrate_patient db false st u))
      as ((extra2 & Ht2 & Hm2 & Hall2) & Hreg2 & Hmono2).
    cbv zeta in *.
    destruct (patient_consultations_spec db (user_id u)) as [_ Hgroups].
    assert (Hone :
      (exists extra1,
          table (migrate_patient db false st u) = table st ++ extra1
          /\ migrated_count (migrate_patient db false st u)
             = (migrated_count st + length extra1)%nat
          /\ Forall (fun r => created_row db r
                              /\ consulted db (cp_patient r) (cp_clinic r)
                              /\ cp_patient r = user_id u) extra1)
      /\ (forall c, consulted db (user_id u) c -> clinic_found db c = true ->
                    exists_registration (table (migrate_patient db false st u)) c
                      (user_id u) = true)
      /\ (forall c q, exists_registration (table st) c q = true ->
                      exists_registration (table (migrate_patient db false st u)) c q
                      = true)).
    { destruct (migrate_patient_cases db false st u)
        as [(Hnone & Ht & Hm & _)|(_ & ->)].
      - split; [|split].
        + exists []. rewrite app_nil_r. repeat split; [exact Ht|rewrite Hm; cbn; lia|constructor].
        + intros c Hc. apply Hgroups in Hc. rewrite Hnone in Hc. destruct Hc.
        + intros c q Hcq. now rewrite Ht.
      - destruct (register_all db (user_id u) (patient_consultations db (user_id u)) st)
          as ((extra1 & Ht & Hm & Hall) & Hreg & Hmono).
        split; [|split].
        + exists extra1. split; [exact Ht|]. split; [exact Hm|].
          eapply Forall_impl; [exact Hall|]. intros r (H1 & H2 & H3).
          split; [exact H1|]. split; [|exact H2]. rewrite H2. now apply Hgroups.
        + intros c Hc Hf. apply Hreg; [now apply Hgroups|exact Hf].
        + exact Hmono. }
    destruct Hone as ((extra1 & Ht1 & Hm1 & Hall1) & Hreg1 & Hmono1).
    split; [|split].
    + exists (extra1 ++ extra2).
      rewrite Ht2, Ht1, Hm2, Hm1, <- app_assoc, List.length_app.
      split; [reflexivity|]. split; [lia|]. apply Forall_app. split.
      * eapply Forall_impl; [exact Hall1|]. intros r (H1 & H2 & H3).
        split; [exact H1|]. split; [exact H2|]. rewrite map_cons. left. now symmetry.
      * eapply Forall_impl; [exact Hall2|]. intros r (H1 & H2 & H3).
        split; [exact H1|]. split; [exact H2|]. rewrite map_cons. now right.
    + intros v c [<-|Hin] Hc Hf.
      * apply Hmono2. now apply Hreg1.
      * now apply Hreg2.
    + intros c q Hcq. apply Hmono2. now apply Hmono1.
Qed.

(** When everything is registered already the outer loop creates nothing. *)
Lemma migrate_nothing_new (db : Database) (us : list UserRow) (st : progress) :
  (forall u c, In u us -> consulted db (user_id u) c -> clinic_found db c = true ->
               exists_registration (table st) c (user_id u) = true) ->
  table (fold_left (migrate_patient db false) us st) = table st
  /\ migrated_count (fold_left (migrate_patient db false) us st) = migrated_count st.
Proof.
  revert st. induction us as [|u rest IH]; intros st Hall; [now split|].
  cbn [fold_left].
  assert (Hstep : table (migrate_patient db false st u) = table st
                  /\ migrated_count (migrate_patient db false st u) = migrated_count st).
  { destruct (migrate_patient_cases db false st u) as [(_ & Ht & Hm & _)|(_ & ->)];
      [now split|].
    apply register_nothing_new. intros c Hc Hf.
    apply (Hall u c); [now left| |exact Hf].
    now apply (patient_consultations_spec db (user_id u)). }
  destruct Hstep as [Ht Hm].
  destruct (IH (migrate_patient db false st u)) as [Ht' Hm'].
  - intros v c Hin Hc Hf. rewrite Ht. apply (Hall v c); [now right|exact Hc|exact Hf].
  - split; congruence.
Qed.

Lemma migrate_dry (db : Database) (us : list UserRow) (st : progress) :
  table (fold_left (migrate_patient db true) us st) = table st.
Proof.
  revert st. induction us as [|u rest IH]; intros st; [reflexivity|].
  cbn [fold_left]. rewrite IH.
  destruct (migrate_patient_cases db true st u) as [(_ & Ht & _)|(_ & ->)];
    [exact Ht|apply register_dry].
Qed.

Lemma no_registration_of_others (rows : list ClinicPatient) (c p q : nat) :
  Forall (fun r => cp_patient r = p) rows -> p <> q ->
  exists_registration rows c q = false.
Proof.
  intros Hall Hne. induction Hall as [|r rows Hr _ IH]; [reflexivity|].
  cbn. rewrite Hr. destruct (Nat.eqb_spec p q) as [Heq|_]; [contradiction|].
  now rewrite andb_false_r.
Qed.

(** The outer loop of a dry run and of a real run report the same when the
    patients are distinct and the tables agree on them. *)
Lemma migrate_same_report (db : Database) (us : list UserRow) (dry real : progress) :
  List.NoDup (map user_id us) ->
  same_report dry real ->
  (forall c q, In q (map user_id us) ->
               exists_registration (table real) c q = exists_registration (table dry) c q) ->
  same_report (fold_left (migrate_patient db true) us dry)
              (fold_left (migrate_patient db false) us real).
Proof.
  revert dry real. induction us as [|u rest IH]; intros dry real Hnd Hsame Hagree;
    [exact Hsame|].
  cbn [fold_left]. rewrite map_cons in Hnd. apply List.NoDup_cons_iff in Hnd as [Hnot Hnd].
  destruct (patient_consultations_spec db (user_id u)) as [Hgnd _].
  apply IH; [exact Hnd| |].
  - destruct (migrate_patient_cases db true dry u)
      as [(Hnone & _ & D1 & D2 & D3 & D4)|(Hsome & ->)];
      destruct (migrate_patient_cases db false real u)
        as [(Hnone' & _ & R1 & R2 & R3 & R4)|(Hsome' & ->)];
      try contradiction.
    + destruct Hsame as (H1 & H2 & H3 & H4). repeat split; congruence.
    + apply register_same_report; [exact Hgnd|exact Hsame|].
      intros c _. apply Hagree. rewrite map_cons. now left.
  - intros c q Hq.
    assert (Hne : user_id u <> q) by (intros <-; contradiction).
    assert (Hdry : table (migrate_patient db true dry u) = table dry).
    { destruct (migrate_patient_cases db true dry u) as [(_ & Ht & _)|(_ & ->)];
        [exact Ht|apply register_dry]. }
    rewrite Hdry.
    destruct (migrate_patient_cases db false real u) as [(_ & Ht & _)|(_ & ->)].
    + rewrite Ht. apply Hagree. rewrite map_cons. now right.
    + destruct (register_all db (user_id u) (patient_consultations db (user_id u)) real)
        as ((extra & Ht & _ & Hall) & _ & _).
      cbv zeta in Ht. rewrite Ht, exists_registration_app.
      rewrite (no_registration_of_others extra c (user_id u) q); [|
        eapply Forall_impl; [exact Hall|]; now intros r (_ & H & _) | exact Hne].
      rewrite orb_false_r. apply Hagree. rewrite map_cons. now right.
Qed.

Lemma patients_are_patients (db : Database) (u : UserRow) :
  In u (patients db) <-> In u (users db) /\ role u = "patient".
Proof.
  unfold patients. rewrite <- !list_elem_of_In, list_elem_of_filter. tauto.
Qed.

Lemma migration_registers (db : Database) (u : UserRow) (c : nat) :
  In u (users db) -> role u = "patient" ->
  consulted db (user_id u) c -> clinic_found db c = true ->
  exists_registration (table (handle false db)) c (user_id u) = true.
Proof.
  intros Hu Hrole Hc Hf. unfold handle.
  destruct (migrate_all db (patients db) (MkProgress (clinic_patients db) 0 0 0 []))
    as (_ & Hreg & _).
  apply Hreg; [|exact Hc|exact Hf]. apply patients_are_patients. now split.
Qed.

(** X19.  A real run registers every patient with every clinic the patient
    has consulted, as long as the clinic exists.  It only appends to the
    table: the rows that were there stay, and each new row is a migrated,
    active registration without registrar, of a patient with a clinic that
    patient has consulted; the counter of migrations is the number of new
    rows. *)
Theorem migration_registers_every_consulted_clinic (db : Database) :
  let st := handle false db in
  (exists extra,
      table st = clinic_patients db ++ extra
      /\ migrated_count st = length extra
      /\ Forall (fun r => created_row db r
                          /\ consulted db (cp_patient r) (cp_clinic r)
                          /\ exists u, In u (users db) /\ role u = "patient"
                                       /\ user_id u = cp_patient r) extra)
  /\ (forall u c,
        In u (users db) -> role u = "patient" ->
        consulted db (user_id u) c -> clinic_found db c = true ->
        exists_registration (table st) c (user_id u) = true).
Proof.
  cbv zeta. unfold handle.
  destruct (migrate_all db (patients db) (MkProgress (clinic_patients db) 0 0 0 []))
    as ((extra & Ht & Hm & Hall) & Hreg & _).
  cbv zeta in *. cbn [table migrated_count] in *. split.
  - exists extra. split; [exact Ht|]. split; [exact Hm|].
    eapply Forall_impl; [exact Hall|]. intros r (H1 & H2 & H3).
    split; [exact H1|]. split; [exact H2|].
    apply in_map_iff in H3 as (u & Hu & Hin). apply patients_are_patients in Hin as [Hin Hrole].
    exists u. now split.
  - intros u c Hu Hrole Hc Hf. apply Hreg; [|exact Hc|exact Hf].
    apply patients_are_patients. now split.
Qed.

(** X20.  The migration is idempotent: run again on the database it has
    produced, it creates no row, counts no migration and leaves the table
    as it is. *)
Theorem migration_is_idempotent (db : Database) :
  let again := handle false (migrated false db) in
  table again = table (handle false db)
  /\ migrated_count again = 0%nat
  /\ clinic_patients (migrated false (migrated false db))
     = clinic_patients (migrated false db).
Proof.
  cbv zeta.
  pose proof (migration_registers db) as Hreg.
  assert (Hnothing :
    table (handle false (migrated false db)) = table (handle false db)
    /\ migrated_count (handle false (migrated false db)) = 0%nat).
  { unfold handle at 1 3.
    change (patients (migrated false db)) with (patients db).
    change (clinic_patients (migrated false db)) with (table (handle false db)).
    apply (migrate_nothing_new (migrated false db) (patients db)
             (MkProgress (table (handle false db)) 0 0 0 [])).
    intros u c Hu Hc Hf. cbn [table].
    apply patients_are_patients in Hu as [Hu Hrole]. now apply Hreg. }
  destruct Hnothing as [Ht Hm]. split; [exact Ht|]. split; [exact Hm|].
  cbn [migrated clinic_patients]. exact Ht.
Qed.

(** X21.  A dry run writes nothing, and when no two patients share a key it
    reports exactly what the real run reports: the same three counters and
    the same lines of output. *)
Theorem dry_run_reports_the_real_run (db : Database) :
  List.NoDup (map user_id (patients db)) ->
  table (handle true db) = clinic_patients db
  /\ same_report (handle true db) (handle false db).
Proof.
  intros Hnd. unfold handle. split; [apply migrate_dry|].
  apply migrate_same_report; [exact Hnd|repeat split|reflexivity].
Qed.

Lemma dry_run_reports_the_real_run_witness :
  let db := MkDatabase
              [MkUser 1 "patient"; MkUser 2 "doctor"; MkUser 3 "patient"; MkUser 4 "patient"]
              [10; 20]%nat
              [MkConsultationRow 1 (Some 10%nat); MkConsultationRow 1 (Some 20%nat);
               MkConsultationRow 1 (Some 20%nat); MkConsultationRow 3 None;
               MkConsultationRow 4 (Some 10%nat); MkConsultationRow 2 (Some 10%nat)]
              [MkClinicPatient 10 4 "manual" (Some 2%nat) true] in
  List.NoDup (map user_id (patients db))
  /\ table (handle true db) = clinic_patients db
  /\ same_report (handle true db) (handle false db)
  /\ output (handle false db)
     = [Migrated 1 20 2; Migrated 1 10 1; NoClinic 3; AlreadyRegistered 4 10]
  /\ migrated_count (handle false db) = 2%nat.
Proof.
  cbv zeta.
  set (db := MkDatabase _ _ _ _).
  assert (Hnd : List.NoDup (map user_id (patients db))).
  { vm_compute. repeat constructor; cbn; intuition discriminate. }
  split; [exact Hnd|].
  destruct (dry_run_reports_the_real_run db Hnd) as [Ht Hr].
  split; [exact Ht|]. split; [exact Hr|]. split; vm_compute; reflexivity.
Defined.

(** * Beyond the claims: durations, guards and environments *)

Import Consultations.
Import Durations.

Lemma actual_duration_of_times (c : Consultation) (started ended : Z) :
  actual_start_time c = Some started ->
  actual_end_time c = Some ended ->
  actual_duration c
  = bind (PyFloat.to_int
            (SFdiv PyFloat.prec PyFloat.emax (total_seconds (ended - started))
               (PyFloat.of_int 60)))
      (fun minutes => Return (Some minutes)).
Proof. intros Hs He. unfold actual_duration. now rewrite Hs, He. Qed.

(** X22.  [actual_duration] is [None] unless both the start and the end
    time are set.  For every whole number of minutes [k] from 0 up to a
    week, a duration of exactly [k] minutes and a duration of [k] minutes
    and 59.999999 seconds both give [k]: the two float divisions and the
    truncation do not spoil the count at either end of a minute. *)
Theorem actual_duration_counts_whole_minutes
    (c : Consultation) (started k : Z) :
  0 <= k <= 10080 ->
  actual_start_time c = Some started ->
  (actual_end_time c = None -> actual_duration c = Return None)
  /\ (actual_end_time c = Some (started + k * 60000000) ->
      actual_duration c = Return (Some k))
  /\ (actual_end_time c = Some (started + k * 60000000 + 59999999) ->
      actual_duration c = Return (Some k)).
Proof.
  intros Hk Hs.
  assert (Hall : Amounts.check_below minute_boundaries 10081 = true)
    by (vm_compute; reflexivity).
  pose proof (check_below_all _ _ Hall k ltac:(lia)) as Hb.
  unfold minute_boundaries in Hb. cbv zeta in Hb.
  split; [|split].
  - intros He. unfold actual_duration. now rewrite Hs, He.
  - intros He. rewrite (actual_duration_of_times c started _ Hs He).
    replace (started + k * 60000000 - started) with (k * 60000000) by lia.
    destruct (PyFloat.to_int _) as [exact|]; [|discriminate].
    destruct (PyFloat.to_int _) as [late|]; [|discriminate].
    apply andb_true_iff in Hb as [Hb _]. apply Z.eqb_eq in Hb. now subst.
  - intros He. rewrite (actual_duration_of_times c started _ Hs He).
    replace (started + k * 60000000 + 59999999 - started)
      with (k * 60000000 + 59999999) by lia.
    destruct (PyFloat.to_int (SFdiv _ _ (total_seconds (k * 60000000)) _))
      as [exact|]; [|discriminate].
    destruct (PyFloat.to_int _) as [late|]; [|discriminate].
    apply andb_true_iff in Hb as [_ Hb]. apply Z.eqb_eq in Hb. now subst.
Qed.

Lemma actual_duration_counts_whole_minutes_witness :
  let c := with_times (Some 1000) (Some (1000 + 45 * 60000000 + 59999999))
             (new_consultation 20000 0 50000) in
  0 <= 45 <= 10080
  /\ actual_start_time c = Some 1000
  /\ actual_duration c = Return (Some 45).
Proof.
  cbv zeta. split; [lia|]. split; [reflexivity|].
  apply (actual_duration_counts_whole_minutes
           (with_times (Some 1000) (Some (1000 + 45 * 60000000 + 59999999))
              (new_consultation 20000 0 50000))
           1000 45 ltac:(lia) eq_refl).
  reflexivity.
Defined.

(** X23.  [mark_ready_for_consultation] succeeds exactly from the statuses
    [scheduled] and [patient_checked_in].  From any other status it returns
    false and changes nothing; when it succeeds the status is
    [ready_for_consultation], the ready time is the current time, the actor
    is recorded, the check-in columns are kept and the row is saved. *)
Theorem mark_ready_guard (c : Consultation) (w : World) (actor : User) :
  let o := mark_ready_for_consultation actor c w in
  (returned o = Return true <-> status c = scheduled \/ status c = patient_checked_in)
  /\ (returned o = Return false <->
      status c <> scheduled /\ status c <> patient_checked_in)
  /\ (returned o = Return false -> self_after o = c /\ world_after o = w)
  /\ (returned o = Return true ->
      status (self_after o) = ready_for_consultation
      /\ ready_for_consultation_at (self_after o) = Some (clock w (reads w))
      /\ ready_marked_by (self_after o) = Some actor
      /\ checked_in_at (self_after o) = checked_in_at c
      /\ checked_in_by (self_after o) = checked_in_by c
      /\ consultations (world_after o) !! id (self_after o) = Some (self_after o)).
Proof.
  cbv zeta. step_method.
  destruct (status c) eqn:Hst; decide_status; try use_save;
    repeat split; intros; try discriminate; try tauto; try congruence;
    try (intuition congruence); try apply lookup_insert_eq.
Qed.

Lemma getattr_delete (settings : gmap string string) (k name fallback : string) :
  k <> name ->
  PhonePeService.getattr (delete k settings) name fallback
  = PhonePeService.getattr settings name fallback.
Proof. intros Hne. unfold PhonePeService.getattr. now rewrite lookup_delete_ne. Qed.

Lemma init_production (settings : gmap string string) :
  PhonePeService.getattr settings "PHONEPE_ENVIRONMENT" "sandbox" = "production" ->
  PhonePeService.init settings
  = PhonePeService.Service "production"
      (PhonePeService.getattr settings "PHONEPE_PROD_MERCHANT_ID" EmptyString)
      (PhonePeService.getattr settings "PHONEPE_PROD_SALT_KEY" EmptyString)
      (PhonePeService.getattr settings "PHONEPE_PROD_SALT_INDEX" "1")
      (PhonePeService.getattr settings "PHONEPE_PROD_PAY_URL"
         "https://api.phonepe.com/apis/hermes/pg/v1/pay")
      (PhonePeService.getattr settings "PHONEPE_CALLBACK_URL" EmptyString)
      (PhonePeService.getattr settings "PHONEPE_REDIRECT_URL" EmptyString).
Proof. intros Henv. unfold PhonePeService.init. rewrite Henv. reflexivity. Qed.

Lemma init_sandbox (settings : gmap string string) :
  PhonePeService.getattr settings "PHONEPE_ENVIRONMENT" "sandbox" <> "production" ->
  PhonePeService.init settings
  = PhonePeService.Service
      (PhonePeService.getattr settings "PHONEPE_ENVIRONMENT" "sandbox")
      (PhonePeService.getattr settings "PHONEPE_MERCHANT_ID" "PGTESTPAYUAT86")
      (PhonePeService.getattr settings "PHONEPE_SALT_KEY"
         "96434309-7796-489d-8924-ab56988a6076")
      (PhonePeService.getattr settings "PHONEPE_SALT_INDEX" "1")
      (PhonePeService.getattr settings "PHONEPE_SANDBOX_PAY_URL"
         "https://api-preprod.phonepe.com/apis/pg-sandbox/pg/v1/pay")
      (PhonePeService.getattr settings "PHONEPE_CALLBACK_URL" EmptyString)
      (PhonePeService.getattr settings "PHONEPE_REDIRECT_URL" EmptyString).
Proof.
  intros Henv. unfold PhonePeService.init.
  apply String.eqb_neq in Henv. rewrite Henv. reflexivity.
Qed.

(** X24.  The environment switch is exact and the two sets of credentials
    never mix: only the setting "production" makes a production service,
    which reads none of the sandbox settings; any other value, or none,
    makes a sandbox service, which reads none of the production settings;
    and the status request goes to the URL of that environment. *)
Theorem environments_never_mix (settings : gmap string string) (txn : string) :
  let self := PhonePeService.init settings in
  let without (keys : list string) := foldr delete settings keys in
  (settings !! "PHONEPE_ENVIRONMENT" = Some "production" ->
   self = PhonePeService.init
            (without ["PHONEPE_MERCHANT_ID"; "PHONEPE_SALT_KEY"; "PHONEPE_SALT_INDEX";
                      "PHONEPE_SANDBOX_PAY_URL"])
   /\ status_url (check_payment_status_request self txn)
      = "https://api.phonepe.com/apis/hermes/pg/v1/status")
  /\ (settings !! "PHONEPE_ENVIRONMENT" <> Some "production" ->
      self = PhonePeService.init
               (without ["PHONEPE_PROD_MERCHANT_ID"; "PHONEPE_PROD_SALT_KEY";
                         "PHONEPE_PROD_SALT_INDEX"; "PHONEPE_PROD_PAY_URL"])
      /\ status_url (check_payment_status_request self txn)
         = "https://api-preprod.phonepe.com/apis/pg-sandbox/pg/v1/status").
Proof.
  cbv beta zeta. cbn [foldr]. split.
  - intros Hs.
    assert (Henv : PhonePeService.getattr settings "PHONEPE_ENVIRONMENT" "sandbox"
                   = "production")
      by (unfold PhonePeService.getattr; now rewrite Hs).
    rewrite (init_production settings Henv), init_production
      by (rewrite !getattr_delete by discriminate; exact Henv).
    rewrite !getattr_delete by discriminate. split; reflexivity.
  - intros Hs.
    assert (Henv : PhonePeService.getattr settings "PHONEPE_ENVIRONMENT" "sandbox"
                   <> "production").
    { unfold PhonePeService.getattr.
      destruct (settings !! "PHONEPE_ENVIRONMENT") as [env|]; cbn;
        [congruence|discriminate]. }
    rewrite (init_sandbox settings Henv), init_sandbox
      by (rewrite !getattr_delete by discriminate; exact Henv).
    rewrite !getattr_delete by discriminate. split; [reflexivity|].
    unfold check_payment_status_request. cbn [PhonePeService.environment status_url].
    apply String.eqb_neq in Henv. now rewrite Henv.
Qed.
